(** * stomp_ws: the STOMP-over-WebSocket client engine of [stomp_ws/client.py]

    A shallow embedding of class [Client] and the properties of its
    connection engine, subscription registry and heartbeat handling.

    Python objects are modelled as follows.
    - A [dict] with string keys is an association list in insertion order
      with Python's update discipline: assigning an existing key replaces the
      value where it stands, assigning a new key appends, [del] of a missing
      key raises [KeyError].
    - Header mappings handed in by callers are objects on a heap, addressed by
      reference, because the engine writes into the caller's own mapping.
    - Exceptions are values of [exn]; a method is a state transformer that
      returns, raises, or (for the connect wait only) runs out of fuel.
    - Everything the engine does to the outside world (logger, transport
      send/close, codec calls, application callbacks) is appended to one
      ordered event trace.
    - [Frame.marshall], [Frame.unmarshall_single] and [Frame.__str__] live in
      [stomp_ws/frame.py]; the engine is verified for any such codec. *)

From Stdlib Require Import Ascii String ZArith List Lia Bool.
From stdpp Require Import base option list strings pretty.

Local Open Scope Z_scope.

(** ** Python dictionaries with string keys *)

Section Dict.
Context {V : Type}.

(** [d[k]] as an option; [None] stands for [KeyError]. *)
Fixpoint dict_get (k : string) (d : list (string * V)) : option V :=
  match d with
  | [] => None
  | (k', v) :: d' => if decide (k = k') then Some v else dict_get k d'
  end.

(** [k in d] *)
Definition dict_mem (k : string) (d : list (string * V)) : bool :=
  match dict_get k d with Some _ => true | None => false end.

(** [d[k] = v] *)
Fixpoint dict_set (k : string) (v : V) (d : list (string * V)) : list (string * V) :=
  match d with
  | [] => [(k, v)]
  | (k', v') :: d' =>
      if decide (k = k') then (k, v) :: d' else (k', v') :: dict_set k v d'
  end.

(** [del d[k]] on a key that is present *)
Fixpoint dict_del (k : string) (d : list (string * V)) : list (string * V) :=
  match d with
  | [] => []
  | (k', v') :: d' =>
      if decide (k = k') then d' else (k', v') :: dict_del k d'
  end.

(** [list(d.keys())] *)
Definition dict_keys (d : list (string * V)) : list string := map fst d.

(** A Python dict holds each key once. *)
Definition dict_wf (d : list (string * V)) : Prop := NoDup (dict_keys d).
End Dict.

(** ** Frames, callbacks, exceptions, events *)

(** A header mapping: [dict] from header name to value. *)
Definition headers_t := list (string * string).

Record Frame := mkFrame {
  command : string;
  headers : headers_t;
  body : option string
}.

(** An application callable, known by its identity. *)
Definition callback := nat.

(** A reference to a header mapping on the heap. *)
Definition ref := nat.

Inductive exn :=
| TimeoutError (msg : string)
| KeyError (key : string)
| TypeError (msg : string)
| AttributeError (name : string)
| CodecError (msg : string)
| DanglingRef (r : ref).

(** What a callable given no argument can find out: the client's attributes
    as they are when it is called. *)
Record client_view := mkView {
  seen_opened : bool;
  seen_connected : bool;
  seen_subscriptions : list string;
  seen_on_close : bool
}.

(** What a callback is applied to.  A MESSAGE frame is delivered with the
    two closures [frame.ack] and [frame.nack] attached; both capture the pair
    [(messageID, subscription)], which is all [handles] records.  A call
    without arguments is recorded with the client as the callee finds it. *)
Inductive cb_arg :=
| ArgClient (v : client_view)
| ArgMessage (m : string)
| ArgFrame (f : Frame) (handles : option (string * string)).

Inductive event :=
| EvLog (s : string)
| EvSend (out : string)
| EvUnmarshal (m : string)
| EvCall (cb : callback) (arg : cb_arg)
| EvRunForever (ping_interval : Z) (ping_timeout : option Z) (verify_ssl : bool)
| EvSleep
| EvWsClose.

(** Entries of the list [_results] that [_on_message] returns. *)
Inductive pyval :=
| VInfo (s : string)
| VReturned (cb : callback) (arg : cb_arg).

(** Notifications the transport thread may deliver while [_connect] sleeps. *)
Inductive signal :=
| SigOpen
| SigError (error : string)
| SigClose.

(** ** The state: the [Client] object and its surroundings *)

Record state := mkState {
  url : string;
  opened : bool;
  connected : bool;
  counter : nat;
  subscriptions : list (string * option callback);
  _connectCallback : option callback;
  errorCallback : option callback;
  (** [None]: the attribute does not exist yet ([__init__] does not set it) *)
  pingCallback : option (option callback);
  (** whether [ws.on_close] is still bound to [_on_close] *)
  ws_on_close : bool;
  heap : list headers_t;
  trace : list event
}.

(** [Client(url)] *)
Definition __init__ (u : string) : state :=
  {| url := u; opened := false; connected := false; counter := 0%nat;
     subscriptions := []; _connectCallback := None; errorCallback := None;
     pingCallback := None; ws_on_close := true; heap := []; trace := [] |}.

(** The client as a callable finds it at state [s]. *)
Definition view (s : state) : client_view :=
  {| seen_opened := opened s; seen_connected := connected s;
     seen_subscriptions := dict_keys (subscriptions s);
     seen_on_close := ws_on_close s |}.

Definition set_opened (b : bool) (s : state) : state :=
  mkState (url s) b (connected s) (counter s) (subscriptions s)
    (_connectCallback s) (errorCallback s) (pingCallback s) (ws_on_close s)
    (heap s) (trace s).

Definition set_connected (b : bool) (s : state) : state :=
  mkState (url s) (opened s) b (counter s) (subscriptions s)
    (_connectCallback s) (errorCallback s) (pingCallback s) (ws_on_close s)
    (heap s) (trace s).

Definition set_counter (n : nat) (s : state) : state :=
  mkState (url s) (opened s) (connected s) n (subscriptions s)
    (_connectCallback s) (errorCallback s) (pingCallback s) (ws_on_close s)
    (heap s) (trace s).

Definition set_subscriptions (d : list (string * option callback)) (s : state) : state :=
  mkState (url s) (opened s) (connected s) (counter s) d
    (_connectCallback s) (errorCallback s) (pingCallback s) (ws_on_close s)
    (heap s) (trace s).

Definition set_callbacks (c e p : option callback) (s : state) : state :=
  mkState (url s) (opened s) (connected s) (counter s) (subscriptions s)
    c e (Some p) (ws_on_close s) (heap s) (trace s).

Definition set_ws_on_close (b : bool) (s : state) : state :=
  mkState (url s) (opened s) (connected s) (counter s) (subscriptions s)
    (_connectCallback s) (errorCallback s) (pingCallback s) b
    (heap s) (trace s).

Definition set_heap (h : list headers_t) (s : state) : state :=
  mkState (url s) (opened s) (connected s) (counter s) (subscriptions s)
    (_connectCallback s) (errorCallback s) (pingCallback s) (ws_on_close s)
    h (trace s).

Definition set_trace (t : list event) (s : state) : state :=
  mkState (url s) (opened s) (connected s) (counter s) (subscriptions s)
    (_connectCallback s) (errorCallback s) (pingCallback s) (ws_on_close s)
    (heap s) t.

(** ** The monad of methods: state, exceptions, fuel *)

Inductive outcome (A : Type) :=
| Ret (a : A)
| Raise (e : exn)
| Diverge.
Arguments Ret {A} a.
Arguments Raise {A} e.
Arguments Diverge {A}.

Definition M (A : Type) := state -> outcome A * state.

Definition ret {A} (a : A) : M A := fun s => (Ret a, s).
Definition raise {A} (e : exn) : M A := fun s => (Raise e, s).
Definition bind {A B} (m : M A) (k : A -> M B) : M B :=
  fun s =>
    match m s with
    | (Ret a, s') => k a s'
    | (Raise e, s') => (Raise e, s')
    | (Diverge, s') => (Diverge, s')
    end.

Notation "'do' x <- m ;; k" := (bind m (fun x => k))
  (at level 10, x name, m at level 99, k at level 200, only parsing).

Definition get_state : M state := fun s => (Ret s, s).
Definition modify (f : state -> state) : M unit := fun s => (Ret tt, f s).
Definition emit (e : event) : M unit :=
  modify (fun s => set_trace (trace s ++ [e]) s).

(** A new dict object. *)
Definition alloc (d : headers_t) : M ref :=
  fun s => (Ret (length (heap s)), set_heap (heap s ++ [d]) s).

(** Reading the object behind a reference.  [DanglingRef] is the model's
    answer to a reference that names no object; Python has no such thing. *)
Definition load (r : ref) : M headers_t :=
  fun s =>
    match heap s !! r with
    | Some d => (Ret d, s)
    | None => (Raise (DanglingRef r), s)
    end.

(** [headers[k] = v], written into the object itself. *)
Definition setitem (r : ref) (k v : string) : M unit :=
  do d <- load r ;;
  modify (fun s => set_heap (<[r := dict_set k v d]> (heap s)) s).

(** [headers[k]] *)
Definition getitem (r : ref) (k : string) : M string :=
  do d <- load r ;;
  match dict_get k d with
  | Some v => ret v
  | None => raise (KeyError k)
  end.

(** [if headers is None: headers = {}] *)
Definition or_empty (h : option ref) : M ref :=
  match h with
  | Some r => ret r
  | None => alloc []
  end.

(** [logger.debug] *)
Definition logger_debug (msg : string) : M unit := emit (EvLog msg).

(** [cb(arg)]; calling [None] is a [TypeError]. *)
Definition call (cb : option callback) (arg : cb_arg) : M pyval :=
  match cb with
  | Some c => do _ <- emit (EvCall c arg) ;; ret (VReturned c arg)
  | None => raise (TypeError "'NoneType' object is not callable")
  end.

(** ** The frame codec of [stomp_ws/frame.py], as the specification words it *)

Definition LF : string := String "010"%char "".
Definition NUL : string := String "000"%char "".

Module FrameSpec.

Definition header_line (kv : string * string) : string :=
  kv.1 +:+ ":" +:+ kv.2 +:+ LF.

(** Modelled from the spec: [Frame.marshall] of [stomp_ws/frame.py].  The
    command, a newline, each header as [key:value] and a newline in
    insertion order, a blank line, the body if present, one NUL byte. *)
Definition marshall (cmd : string) (hdrs : headers_t) (bdy : option string) : string :=
  cmd +:+ LF +:+ String.concat "" (map header_line hdrs) +:+ LF
      +:+ default "" bdy +:+ NUL.

(** The text before the first [c], and the text after it if [c] occurs. *)
Fixpoint cut (c : ascii) (s : string) : string * option string :=
  match s with
  | EmptyString => (EmptyString, None)
  | String a s' =>
      if decide (a = c) then (EmptyString, Some s')
      else let '(l, r) := cut c s' in (String a l, r)
  end.

Fixpoint parse_headers (fuel : nat) (s : string) (acc : headers_t)
  : headers_t * string :=
  match fuel with
  | O => (acc, s)
  | S fuel' =>
      match cut "010"%char s with
      | (EmptyString, Some rest) => (acc, rest)
      | (line, Some rest) =>
          let '(k, v) := cut ":"%char line in
          parse_headers fuel' rest (dict_set k (default "" v) acc)
      | (EmptyString, None) => (acc, "")
      | (line, None) =>
          let '(k, v) := cut ":"%char line in
          (dict_set k (default "" v) acc, "")
      end
  end.

Fixpoint strip_nul (s : string) : string :=
  match s with
  | EmptyString => EmptyString
  | String a EmptyString =>
      if decide (a = "000"%char) then EmptyString else s
  | String a s' => String a (strip_nul s')
  end.

(** Modelled from the spec: [Frame.unmarshall_single] of
    [stomp_ws/frame.py].  The first line is the command; the lines up to
    the first blank one are headers, split at the first colon, a later
    duplicate replacing an earlier one; the rest, less a trailing NUL, is
    the body.  A message without a command token is a codec error. *)
Definition unmarshall_single (data : string) : exn + Frame :=
  match cut "010"%char data with
  | (EmptyString, _) => inl (CodecError "no command")
  | (cmd, None) => inr (mkFrame cmd [] None)
  | (cmd, Some rest) =>
      let '(hdrs, tail) := parse_headers (String.length rest) rest [] in
      let b := strip_nul tail in
      inr (mkFrame cmd hdrs (if decide (b = "") then None else Some b))
  end.

(** Modelled from the spec: [Frame.__str__] of [stomp_ws/frame.py], of
    which the specification fixes nothing; the wire text without its
    terminator serves in the examples. *)
Definition frame_str (f : Frame) : string :=
  command f +:+ LF +:+ String.concat "" (map header_line (headers f)) +:+ LF
      +:+ default "" (body f).

End FrameSpec.

(** The interface of [stomp_ws/frame.py] that the engine uses:
    [Frame.marshall], [Frame.unmarshall_single] (which may raise) and
    [str(frame)]. *)
Class Codec := {
  marshall : string -> headers_t -> option string -> string;
  unmarshall_single : string -> exn + Frame;
  frame_str : Frame -> string
}.

(** The codec of the specification. *)
Definition spec_codec : Codec :=
  {| marshall := FrameSpec.marshall;
     unmarshall_single := FrameSpec.unmarshall_single;
     frame_str := FrameSpec.frame_str |}.

(** ** The engine: methods of [Client] *)

Definition VERSIONS : string := "1.0,1.1,1.2".

Local Arguments String.append : simpl never.

(** [str] of a Python [int] *)
Definition str_int (z : Z) : string := pretty z.

(** [str] of the subscription counter *)
Definition str_nat (n : nat) : string := pretty n.

Section Engine.

Context {codec : Codec}.

Definition _on_open : M unit := modify (set_opened true).

Definition _clean_up : M unit := modify (set_connected false).

Definition _on_close : M unit :=
  do s <- get_state ;;
  do _ <- (if negb (opened s) then modify (set_opened true) else ret tt) ;;
  do _ <- modify (set_connected false) ;;
  do _ <- logger_debug ("Whoops! Lost connection to " +:+ url s) ;;
  _clean_up.

Definition _on_error (error : string) : M unit :=
  do s <- get_state ;;
  do _ <- (if negb (opened s) then modify (set_opened true) else ret tt) ;;
  logger_debug error.

(** [self.ws.send]; the transport is an outside collaborator and is taken
    to accept what it is given. *)
Definition ws_send (out : string) : M unit := emit (EvSend out).

Definition _on_ping : M unit := ws_send "pong".

Definition _on_pong : M unit := logger_debug ">>> PING".

Definition _transmit (cmd : string) (hdrs : ref) (bdy : option string) : M unit :=
  do h <- load hdrs ;;
  let out := marshall cmd h bdy in
  do _ <- logger_debug (LF +:+ ">>> " +:+ out) ;;
  ws_send out.

Definition send (destination : string) (hdrs : option ref) (bdy : option string)
  : M unit :=
  do h <- or_empty hdrs ;;
  let bdy := match bdy with Some b => b | None => "" end in
  do _ <- setitem h "destination" destination ;;
  _transmit "SEND" h (Some bdy).

Definition unsubscribe (id : string) : M unit :=
  do s <- get_state ;;
  if dict_mem id (subscriptions s) then
    do _ <- modify (set_subscriptions (dict_del id (subscriptions s))) ;;
    do h <- alloc [("id", id)] ;;
    _transmit "UNSUBSCRIBE" h None
  else raise (KeyError id).

(** The closure [unsubscribe] that [subscribe] returns: it reads
    [headers["id"]] from the captured mapping when it is called. *)
Definition unsubscribe_closure (hdrs : ref) : M unit :=
  do id <- getitem hdrs "id" ;;
  unsubscribe id.

(** Returns the id and the mapping captured by the returned closure. *)
Definition subscribe (destination : string) (cb : option callback)
    (hdrs : option ref) : M (string * ref) :=
  do h <- or_empty hdrs ;;
  do d <- load h ;;
  do _ <- (if negb (dict_mem "id" d) then
             do s <- get_state ;;
             do _ <- setitem h "id" ("sub-" +:+ str_nat (counter s)) ;;
             modify (set_counter (S (counter s)))
           else ret tt) ;;
  do _ <- setitem h "destination" destination ;;
  do id <- getitem h "id" ;;
  do _ <- modify (fun s => set_subscriptions (dict_set id cb (subscriptions s)) s) ;;
  do _ <- _transmit "SUBSCRIBE" h None ;;
  do id' <- getitem h "id" ;;
  ret (id', h).

Definition ack (message_id subscription : string) (hdrs : option ref) : M unit :=
  do h <- or_empty hdrs ;;
  do _ <- setitem h "message-id" message_id ;;
  do _ <- setitem h "subscription" subscription ;;
  _transmit "ACK" h None.

Definition nack (message_id subscription : string) (hdrs : option ref) : M unit :=
  do h <- or_empty hdrs ;;
  do _ <- setitem h "message-id" message_id ;;
  do _ <- setitem h "subscription" subscription ;;
  _transmit "NACK" h None.

Definition _on_message (message : string) : M (option (list pyval)) :=
  if decide (message = LF) then
    do _ <- logger_debug "<<< PONG" ;;
    do s <- get_state ;;
    match pingCallback s with
    | None => raise (AttributeError "pingCallback")
    | Some cb => do _ <- call cb (ArgMessage message) ;; ret None
    end
  else
    do _ <- logger_debug (LF +:+ "<<< " +:+ message) ;;
    do _ <- emit (EvUnmarshal message) ;;
    match unmarshall_single message with
    | inl e => raise e
    | inr frame =>
        if decide (command frame = "CONNECTED") then
          do _ <- modify (set_connected true) ;;
          do s <- get_state ;;
          do _ <- logger_debug ("connected to server " +:+ url s) ;;
          match _connectCallback s with
          | Some cb =>
              do v <- call (Some cb) (ArgFrame frame None) ;; ret (Some [v])
          | None => ret (Some [])
          end
        else if decide (command frame = "MESSAGE") then
          match dict_get "subscription" (headers frame) with
          | None => raise (KeyError "subscription")
          | Some subscription =>
              do s <- get_state ;;
              match dict_get subscription (subscriptions s) with
              | Some onreceive =>
                  match dict_get "message-id" (headers frame) with
                  | None => raise (KeyError "message-id")
                  | Some messageID =>
                      do v <- call onreceive
                                (ArgFrame frame (Some (messageID, subscription))) ;;
                      ret (Some [v])
                  end
              | None =>
                  let info := "Unhandled received MESSAGE: " +:+ frame_str frame in
                  do _ <- logger_debug info ;;
                  ret (Some [VInfo info])
              end
          end
        else if decide (command frame = "RECEIPT") then ret (Some [])
        else if decide (command frame = "ERROR") then
          do s <- get_state ;;
          match errorCallback s with
          | Some cb =>
              do v <- call (Some cb) (ArgFrame frame None) ;; ret (Some [v])
          | None => ret (Some [])
          end
        else
          let info := "Unhandled received MESSAGE: " +:+ command frame in
          do _ <- logger_debug info ;;
          ret (Some [VInfo info])
    end.

(** One notification from the transport thread.  A close reaches
    [_on_close] only while [ws.on_close] is bound to it. *)
Definition deliver (sg : signal) : M unit :=
  match sg with
  | SigOpen => _on_open
  | SigError e => _on_error e
  | SigClose =>
      do s <- get_state ;; if ws_on_close s then _on_close else ret tt
  end.

Fixpoint deliver_all (sigs : list signal) : M unit :=
  match sigs with
  | [] => ret tt
  | sg :: sigs' => do _ <- deliver sg ;; deliver_all sigs'
  end.

(** [time.sleep(.25)]: the calling thread yields, and the transport thread
    delivers what it has. *)
Definition sleep (sigs : list signal) : M unit :=
  do _ <- emit EvSleep ;; deliver_all sigs.

(** The polling loop of [_connect].  [env k] is what the transport thread
    delivers during the [k]-th sleep; [fuel] bounds the number of polls.
    The transport thread is taken to act only while the caller sleeps. *)
Fixpoint _connect_wait (fuel : nat) (timeout : Z) (env : nat -> list signal)
    (k : nat) (total_ms : Z) : M unit :=
  do s <- get_state ;;
  if opened s then ret tt
  else
    match fuel with
    | O => fun s => (Diverge, s)
    | S fuel' =>
        do _ <- sleep (env k) ;;
        let total_ms := total_ms + 250 in
        if (0 <? timeout) && (timeout <? total_ms) then
          raise (TimeoutError ("Connection to " +:+ url s +:+ " timed out"))
        else _connect_wait fuel' timeout env (S k) total_ms
    end.

Definition _connect (fuel : nat) (env : nat -> list signal) (timeout : Z)
    (ping_interval : Z) (ping_timeout : option Z) (verify_ssl : bool) : M unit :=
  do _ <- emit (EvRunForever ping_interval ping_timeout verify_ssl) ;;
  _connect_wait fuel timeout env 0 0.

Definition heart_beat (ping_interval : Z) : string :=
  str_int (ping_interval * 1000) +:+ "," +:+ str_int (ping_interval * 1000).

Definition connect (fuel : nat) (env : nat -> list signal)
    (login passcode host : option string) (hdrs : option ref)
    (connectCallback errorCallback pingCallback : option callback)
    (connect_timeout ping_interval : Z) (ping_timeout : option Z)
    (verify_ssl : bool) : M unit :=
  do _ <- logger_debug "Opening web socket..." ;;
  do _ <- _connect fuel env connect_timeout ping_interval ping_timeout verify_ssl ;;
  do h <- or_empty hdrs ;;
  do s <- get_state ;;
  do _ <- setitem h "host" (match host with Some x => x | None => url s end) ;;
  do _ <- setitem h "accept-version" VERSIONS ;;
  do _ <- setitem h "heart-beat" (heart_beat ping_interval) ;;
  do _ <- (match login with Some l => setitem h "login" l | None => ret tt end) ;;
  do _ <- (match passcode with Some p => setitem h "passcode" p | None => ret tt end) ;;
  do _ <- modify (set_callbacks connectCallback errorCallback pingCallback) ;;
  _transmit "CONNECT" h None.

Fixpoint unsubscribe_each (ids : list string) : M unit :=
  match ids with
  | [] => ret tt
  | id :: ids' => do _ <- unsubscribe id ;; unsubscribe_each ids'
  end.

Definition disconnect (disconnectCallback : option callback)
    (hdrs : option ref) : M unit :=
  do h <- or_empty hdrs ;;
  do s <- get_state ;;
  let subscription_ids := dict_keys (subscriptions s) in
  do _ <- unsubscribe_each subscription_ids ;;
  do _ <- _transmit "DISCONNECT" h None ;;
  do _ <- modify (set_ws_on_close false) ;;
  do _ <- emit EvWsClose ;;
  do _ <- _clean_up ;;
  match disconnectCallback with
  | Some cb =>
      do now <- get_state ;;
      do _ <- call (Some cb) (ArgClient (view now)) ;;
      ret tt
  | None => ret tt
  end.

(** ** The step relation of the engine

    A transition is one run of a transport callback or of a public
    operation, or the application creating a header mapping.  Application
    callbacks are always the last thing a method does with the engine, so
    what a callback itself asks of the engine appears as later
    transitions. *)

Inductive op :=
| OnOpen
| OnClose
| OnError (error : string)
| OnPing
| OnPong
| OnMessage (message : string)
| Connect (fuel : nat) (env : nat -> list signal)
    (login passcode host : option string) (hdrs : option ref)
    (connectCallback errorCallback pingCallback : option callback)
    (connect_timeout ping_interval : Z) (ping_timeout : option Z)
    (verify_ssl : bool)
| Disconnect (disconnectCallback : option callback) (hdrs : option ref)
| Send (destination : string) (hdrs : option ref) (bdy : option string)
| Subscribe (destination : string) (cb : option callback) (hdrs : option ref)
| Unsubscribe (id : string)
| UnsubscribeClosure (hdrs : ref)
| Ack (message_id subscription : string) (hdrs : option ref)
| Nack (message_id subscription : string) (hdrs : option ref)
| NewDict (d : headers_t).

Definition discard {A} (m : M A) : M unit := do _ <- m ;; ret tt.

Definition exec (o : op) : M unit :=
  match o with
  | OnOpen => _on_open
  | OnClose => _on_close
  | OnError e => _on_error e
  | OnPing => _on_ping
  | OnPong => _on_pong
  | OnMessage m => discard (_on_message m)
  | Connect fuel env login passcode host hdrs ccb ecb pcb tmo pint ptmo vssl =>
      connect fuel env login passcode host hdrs ccb ecb pcb tmo pint ptmo vssl
  | Disconnect cb hdrs => disconnect cb hdrs
  | Send dst hdrs bdy => send dst hdrs bdy
  | Subscribe dst cb hdrs => discard (subscribe dst cb hdrs)
  | Unsubscribe id => unsubscribe id
  | UnsubscribeClosure hdrs => unsubscribe_closure hdrs
  | Ack mid sub hdrs => ack mid sub hdrs
  | Nack mid sub hdrs => nack mid sub hdrs
  | NewDict d => discard (alloc d)
  end.

(** The transport calls [_on_close] only while [ws.on_close] is bound to
    it; a dict literal holds each key once. *)
Definition enabled (s : state) (o : op) : Prop :=
  match o with
  | OnClose => ws_on_close s = true
  | NewDict d => dict_wf d
  | _ => True
  end.

(** [step s o s']: [o] is enabled in [s] and its run ends, by returning or
    by raising, in [s']. *)
Definition step (s : state) (o : op) (s' : state) : Prop :=
  enabled s o /\ exists r, exec o s = (r, s') /\ r <> Diverge.

Inductive reachable (u : string) : state -> Prop :=
| reachable_init : reachable u (__init__ u)
| reachable_step s o s' : reachable u s -> step s o s' -> reachable u s'.

(** An inbound message that the codec reads as a CONNECTED frame. *)
Definition is_connected_frame (message : string) : Prop :=
  message <> LF /\
  exists frame, unmarshall_single message = inr frame /\
                command frame = "CONNECTED".

(** The events by which [_transmit] sends a frame. *)
Definition transmitted (cmd : string) (h : headers_t) (bdy : option string)
  : list event :=
  [EvLog (LF +:+ ">>> " +:+ marshall cmd h bdy); EvSend (marshall cmd h bdy)].

(** What went to [ws.send], in order. *)
Fixpoint sent (t : list event) : list string :=
  match t with
  | [] => []
  | EvSend out :: t' => out :: sent t'
  | _ :: t' => sent t'
  end.

(** The callbacks that were invoked, in order. *)
Fixpoint calls (t : list event) : list (callback * cb_arg) :=
  match t with
  | [] => []
  | EvCall cb a :: t' => (cb, a) :: calls t'
  | _ :: t' => calls t'
  end.

(** The messages handed to [Frame.unmarshall_single], in order. *)
Fixpoint unmarshalled (t : list event) : list string :=
  match t with
  | [] => []
  | EvUnmarshal m :: t' => m :: unmarshalled t'
  | _ :: t' => unmarshalled t'
  end.

(** ** Vocabulary of the statements *)

(** [m] respects [R]: however a run of [m] ends, it ends in a state related
    by [R] to the one it started in. *)
Definition respects {A} (R : state -> state -> Prop) (m : M A) : Prop :=
  forall s r s', m s = (r, s') -> R s s'.

(** The mapping an operation works on, and the state it works in, once
    [if headers is None: headers = {}] has run. *)
Definition resolve (hdrs : option ref) (s : state) : ref * state :=
  match hdrs with
  | Some r => (r, s)
  | None => (length (heap s), set_heap (heap s ++ [[]]) s)
  end.

(** The contents of the caller's mapping on entry. *)
Definition contents (hdrs : option ref) (s : state) : option headers_t :=
  match hdrs with
  | Some r => heap s !! r
  | None => Some []
  end.

(** What [disconnect] does for the subscriptions [ids]: the frames it
    sends, and the one-entry mappings it builds for them. *)
Definition unsubscribe_events (ids : list string) : list event :=
  flat_map (fun id => transmitted "UNSUBSCRIBE" [("id", id)] None) ids.

Definition unsubscribe_dicts (ids : list string) : list headers_t :=
  map (fun id => [("id", id)]) ids.

(** The call of the disconnect callback, when there is one, on a client
    that looks like [v]. *)
Definition callback_events (cb : option callback) (v : client_view)
  : list event :=
  match cb with
  | Some c => [EvCall c (ArgClient v)]
  | None => []
  end.

(** A client torn down: nothing registered, [connected] reset, the close
    handler unbound. *)
Definition torn_down (was_opened : bool) : client_view :=
  {| seen_opened := was_opened; seen_connected := false;
     seen_subscriptions := []; seen_on_close := false |}.

(** What Python raises when [None] is called. *)
Definition none_not_callable : exn :=
  TypeError "'NoneType' object is not callable".

(** The state once a heartbeat has been logged. *)
Definition heartbeat_logged (s : state) : state :=
  set_trace (trace s ++ [EvLog "<<< PONG"]) s.

(** The state once a frame message has been logged and handed to the
    codec. *)
Definition frame_received (message : string) (s : state) : state :=
  set_trace
    (trace s ++ [EvLog (LF +:+ "<<< " +:+ message); EvUnmarshal message]) s.

(** Kinds of events. *)
Definition is_log (e : event) : bool :=
  match e with EvLog _ => true | _ => false end.

Definition is_sleep (e : event) : bool :=
  match e with EvSleep => true | _ => false end.

(** The number of polls a trace records. *)
Definition sleeps (t : list event) : nat := length (filter is_sleep t).

(** Whether a notification sets the liveness flag. *)
Definition signals_opened (on_close_bound : bool) (sg : signal) : bool :=
  match sg with
  | SigOpen | SigError _ => true
  | SigClose => on_close_bound
  end.

(** The exception of [_connect]. *)
Definition timed_out (s : state) : exn :=
  TimeoutError ("Connection to " +:+ url s +:+ " timed out").

(** What the wait leaves alone: everything but the two flags and the
    trace. *)
Definition same_but_flags (s s' : state) : Prop :=
  url s' = url s /\ heap s' = heap s /\ counter s' = counter s /\
  subscriptions s' = subscriptions s /\
  _connectCallback s' = _connectCallback s /\
  errorCallback s' = errorCallback s /\ pingCallback s' = pingCallback s /\
  ws_on_close s' = ws_on_close s.

(** The events of the wait: sleeps, and what the callbacks log. *)
Definition is_wait_event (e : event) : bool := is_log e || is_sleep e.

(** The mapping [connect] builds out of the caller's [d]. *)
Definition connect_headers (u : string) (login passcode host : option string)
    (ping_interval : Z) (d : headers_t) : headers_t :=
  let d := dict_set "host" (match host with Some x => x | None => u end) d in
  let d := dict_set "accept-version" VERSIONS d in
  let d := dict_set "heart-beat" (heart_beat ping_interval) d in
  let d := match login with Some l => dict_set "login" l d | None => d end in
  match passcode with Some p => dict_set "passcode" p d | None => d end.

(** A run of [subscribe] calls, collecting the ids they return. *)
Fixpoint subscribe_each
    (calls : list (string * option callback * option ref)) : M (list string) :=
  match calls with
  | [] => ret []
  | (dst, cb, hdrs) :: rest =>
      do r <- subscribe dst cb hdrs ;;
      do ids <- subscribe_each rest ;;
      ret (r.1 :: ids)
  end.

(** No call of the run supplies an [id] header: when its turn comes, its
    mapping is absent or holds no [id]. *)
Fixpoint no_id_supplied
    (calls : list (string * option callback * option ref)) (s : state) : Prop :=
  match calls with
  | [] => True
  | (dst, cb, hdrs) :: rest =>
      (exists d, contents hdrs s = Some d /\ dict_get "id" d = None) /\
      no_id_supplied rest (subscribe dst cb hdrs s).2
  end.

(** The ids [sub-c], [sub-(c+1)], ..., [n] of them. *)
Definition minted_ids (c n : nat) : list string :=
  map (fun i => "sub-" +:+ str_nat i) (seq c n).

(** Header [k] is in the frame exactly when its argument is supplied. *)
Definition header_iff_supplied (k : string) (arg : option string)
    (d' : headers_t) : Prop :=
  is_Some (dict_get k d') <-> is_Some arg.

(** The keys [connect] writes whatever the arguments are. *)
Definition mandated_keys : list string :=
  ["host"; "accept-version"; "heart-beat"].

(** [connected] is not switched on. *)
Definition stays_disconnected (s s' : state) : Prop :=
  connected s' = true -> connected s = true.

(** The registry stays a dictionary: no key twice. *)
Definition keeps_registry (s s' : state) : Prop :=
  dict_wf (subscriptions s) -> dict_wf (subscriptions s').

(** [opened] is not switched off. *)
Definition stays_opened (s s' : state) : Prop :=
  opened s = true -> opened s' = true.

(** The counter does not go down. *)
Definition counter_grows (s s' : state) : Prop :=
  (counter s <= counter s')%nat.

(** The counter stays where it is. *)
Definition counter_kept (s s' : state) : Prop := counter s' = counter s.

(** [ws.on_close] is not bound again. *)
Definition stays_unbound (s s' : state) : Prop :=
  ws_on_close s = false -> ws_on_close s' = false.

(** The transitions that run in the transport's thread. *)
Definition is_transport_callback (o : op) : bool :=
  match o with
  | OnOpen | OnClose | OnError _ | OnPing | OnPong | OnMessage _ => true
  | _ => false
  end.

(** A run of transitions. *)
Inductive steps : state -> list op -> state -> Prop :=
| steps_nil s : steps s [] s
| steps_cons s o s1 ops s2 :
    step s o s1 -> steps s1 ops s2 -> steps s (o :: ops) s2.

(** The id [subscribe] works with: the caller's, or a minted one. *)
Definition subscription_id (d : headers_t) (s : state) : string :=
  match dict_get "id" d with
  | Some id => id
  | None => "sub-" +:+ str_nat (counter s)
  end.

(** What a CONNECTED frame makes the connect callback receive. *)
Definition connect_calls (cb : option callback) (frame : Frame)
  : list (callback * cb_arg) :=
  match cb with
  | Some c => [(c, ArgFrame frame None)]
  | None => []
  end.

End Engine.

(** * Clients and messages for concrete runs, over the codec of the
    specification *)

Module Run.

#[local] Existing Instance spec_codec.

(** A new client. *)
Definition fresh : state := __init__ "ws://broker/stomp".

(** A transport that opens during the first sleep. *)
Definition opens_at_once (k : nat) : list signal :=
  match k with O => [SigOpen] | _ => [] end.

(** A transport that never signals. *)
Definition silent (k : nat) : list signal := [].

(** [client.connect()] with every argument at its default. *)
Definition connect_defaults : M unit :=
  connect 1 opens_at_once None None None None None None None 0 0
    None true.

(** The client after [connect()] with default arguments. *)
Definition connected_by_default : state := (connect_defaults fresh).2.

(** The client after two subscriptions without headers. *)
Definition two_subscriptions : state :=
  ((do _ <- subscribe "/queue/a" (Some 1%nat) None ;;
    subscribe "/queue/b" (Some 2%nat) None) fresh).2.

(** The client after three subscriptions without headers. *)
Definition three_subscriptions : state :=
  ((do _ <- subscribe "/queue/a" (Some 1%nat) None ;;
    do _ <- subscribe "/queue/b" (Some 2%nat) None ;;
    subscribe "/queue/c" (Some 3%nat) None) fresh).2.

(** The client in a session: connected with default arguments, the
    broker's CONNECTED frame received, three subscriptions made. *)
Definition in_session : state :=
  ((do _ <- connect_defaults ;;
    do _ <- _on_message (marshall "CONNECTED" [("version", "1.2")] None) ;;
    do _ <- subscribe "/queue/a" (Some 1%nat) None ;;
    do _ <- subscribe "/queue/b" (Some 2%nat) None ;;
    subscribe "/queue/c" (Some 3%nat) None) fresh).2.

(** The same client, the caller holding a mapping for a [send]. *)
Definition sending : state :=
  (alloc [("destination", "/queue/old"); ("receipt", "r-2")] in_session).2.

(** The client after [subscribe("/queue/a")], the callback left at its
    default [None]. *)
Definition subscribed_without_callback : state :=
  (subscribe "/queue/a" None None fresh).2.

(** A MESSAGE frame for subscription [sub]. *)
Definition frame_for (sub : string) : Frame :=
  mkFrame "MESSAGE" [("subscription", sub); ("message-id", "42")]
    (Some "hello").

(** A MESSAGE frame for subscription [sub], on the wire. *)
Definition message_for (sub : string) : string :=
  marshall "MESSAGE" [("subscription", sub); ("message-id", "42")]
    (Some "hello").

(** A CONNECTED frame on the wire, and the client after receiving it. *)
Definition connected_message : string :=
  marshall "CONNECTED" [("version", "1.2")] None.

Definition after_connected : state :=
  (exec (OnMessage connected_message) fresh).2.

(** A transport that fails during the first sleep. *)
Definition fails_at_once (k : nat) : list signal :=
  match k with O => [SigError "refused"] | _ => [] end.

(** The client after the transport has reported an error. *)
Definition after_error : state := (exec (OnError "refused") fresh).2.

(** The client after two subscriptions and a [disconnect]. *)
Definition after_disconnect : state :=
  (disconnect None None two_subscriptions).2.

(** An ERROR frame and a frame with a command of no known kind. *)
Definition error_frame : Frame := mkFrame "ERROR" [("message", "bad")] None.
Definition error_message : string := marshall "ERROR" [("message", "bad")] None.

(** A MESSAGE frame that names no subscription. *)
Definition anonymous_frame : Frame :=
  mkFrame "MESSAGE" [("message-id", "42")] (Some "hello").
Definition anonymous_message : string :=
  marshall "MESSAGE" [("message-id", "42")] (Some "hello").

(** The caller holds an empty mapping. *)
Definition with_empty_mapping : state := (alloc [] fresh).2.

(** The caller holds a mapping that already carries a [login]. *)
Definition with_login_header : state :=
  (alloc [("login", "bob")] fresh).2.

(** The caller holds a mapping with a header of its own. *)
Definition with_caller_mapping : state :=
  (alloc [("receipt", "r-1")] fresh).2.

End Run.

(** * Verification *)

Section Facts.

Context {codec : Codec}.

(** ** Facts about dictionaries *)

Section DictFacts.
Context {V : Type}.
Implicit Types (d : list (string * V)) (k : string) (v : V).

Lemma dict_get_None k d : dict_get k d = None <-> k ∉ dict_keys d.
Proof.
  induction d as [|[k' v'] d IH]; simpl.
  - split; [intros _; apply not_elem_of_nil | done].
  - case_decide; subst.
    + split; [done | intros []; left].
    + rewrite IH, not_elem_of_cons. tauto.
Qed.

Lemma dict_mem_true k d : dict_mem k d = true <-> k ∈ dict_keys d.
Proof.
  unfold dict_mem. destruct (dict_get k d) eqn:E.
  - split; [intros _|done].
    destruct (decide (k ∈ dict_keys d)) as [|N]; [done|].
    apply dict_get_None in N. congruence.
  - apply dict_get_None in E. split; [done | intros; contradiction].
Qed.

Lemma dict_mem_false k d : dict_mem k d = false <-> dict_get k d = None.
Proof. unfold dict_mem. destruct (dict_get k d); split; congruence. Qed.

Lemma dict_get_set_eq k v d : dict_get k (dict_set k v d) = Some v.
Proof.
  induction d as [|[k' v'] d IH]; simpl.
  - by rewrite decide_True.
  - case_decide; simpl; [by rewrite decide_True | by rewrite decide_False].
Qed.

Lemma dict_get_set_ne k k' v d :
  k <> k' -> dict_get k' (dict_set k v d) = dict_get k' d.
Proof.
  intros Hne. induction d as [|[k0 v0] d IH]; simpl.
  - rewrite decide_False; congruence.
  - destruct (decide (k = k0)); subst; simpl.
    + rewrite !decide_False; congruence.
    + by rewrite IH.
Qed.

Lemma dict_get_del_ne k k' d :
  k <> k' -> dict_get k' (dict_del k d) = dict_get k' d.
Proof.
  intros Hne. induction d as [|[k0 v0] d IH]; simpl; [done|].
  destruct (decide (k = k0)); subst; simpl.
  - rewrite decide_False; congruence.
  - by rewrite IH.
Qed.

Lemma dict_keys_del_notin k d : k ∉ dict_keys d -> dict_del k d = d.
Proof.
  induction d as [|[k0 v0] d IH]; simpl; [done|].
  rewrite not_elem_of_cons. intros [? ?].
  rewrite decide_False by done. by rewrite IH.
Qed.

Lemma dict_get_del_eq k d : dict_wf d -> dict_get k (dict_del k d) = None.
Proof.
  unfold dict_wf. induction d as [|[k0 v0] d IH]; simpl; [done|].
  rewrite NoDup_cons. intros [Hk0 Hd].
  destruct (decide (k = k0)); subst; simpl.
  - by apply dict_get_None.
  - rewrite decide_False by done. by apply IH.
Qed.

Lemma dict_keys_set k v d :
  dict_keys (dict_set k v d) =
    if dict_mem k d then dict_keys d else dict_keys d ++ [k].
Proof.
  unfold dict_mem. induction d as [|[k0 v0] d IH]; simpl; [done|].
  destruct (decide (k = k0)); subst; simpl; [done|].
  rewrite IH. by destruct (dict_get k d).
Qed.

Lemma dict_wf_set k v d : dict_wf d -> dict_wf (dict_set k v d).
Proof.
  unfold dict_wf. rewrite dict_keys_set. intros Hd.
  destruct (dict_mem k d) eqn:E; [done|].
  apply NoDup_app. split_and!; [done | | apply NoDup_singleton].
  intros x Hx Hk. apply list_elem_of_singleton in Hk. subst.
  apply dict_mem_true in Hx. congruence.
Qed.

Lemma dict_keys_del_sub k d x : x ∈ dict_keys (dict_del k d) -> x ∈ dict_keys d.
Proof.
  induction d as [|[k0 v0] d IH]; simpl; [done|].
  destruct (decide (k = k0)); subst; simpl.
  - by right.
  - rewrite !elem_of_cons. intros [?|?]; [by left | right; by apply IH].
Qed.

Lemma dict_wf_del k d : dict_wf d -> dict_wf (dict_del k d).
Proof.
  unfold dict_wf. induction d as [|[k0 v0] d IH]; simpl; [done|].
  rewrite NoDup_cons. intros [Hk0 Hd].
  destruct (decide (k = k0)); subst; simpl; [done|].
  apply NoDup_cons. split; [|by apply IH].
  intros Hin. by apply dict_keys_del_sub in Hin.
Qed.

Lemma dict_length_del k d :
  dict_mem k d = true -> S (length (dict_del k d)) = length d.
Proof.
  unfold dict_mem. induction d as [|[k0 v0] d IH]; simpl; [done|].
  destruct (decide (k = k0)); subst; simpl; [done|].
  intros H. by rewrite IH.
Qed.
End DictFacts.

(** ** Running the primitive actions *)

Lemma bind_Ret {A B} (m : M A) (k : A -> M B) s a s' :
  m s = (Ret a, s') -> bind m k s = k a s'.
Proof. unfold bind. by intros ->. Qed.

Lemma bind_Raise {A B} (m : M A) (k : A -> M B) s e s' :
  m s = (Raise e, s') -> bind m k s = (Raise e, s').
Proof. unfold bind. by intros ->. Qed.

Lemma bind_Diverge {A B} (m : M A) (k : A -> M B) s s' :
  m s = (Diverge, s') -> bind m k s = (Diverge, s').
Proof. unfold bind. by intros ->. Qed.

Lemma lookup_alloc (h : list headers_t) (d : headers_t) :
  (h ++ [d]) !! length h = Some d.
Proof. rewrite lookup_app_r by lia. by rewrite Nat.sub_diag. Qed.

Lemma load_run r s d : heap s !! r = Some d -> load r s = (Ret d, s).
Proof. unfold load. by intros ->. Qed.

Lemma setitem_run r k v s d :
  heap s !! r = Some d ->
  setitem r k v s = (Ret tt, set_heap (<[r := dict_set k v d]> (heap s)) s).
Proof. intros H. unfold setitem. by rewrite (bind_Ret _ _ _ _ _ (load_run _ _ _ H)). Qed.

Lemma getitem_run r k s d v :
  heap s !! r = Some d -> dict_get k d = Some v -> getitem r k s = (Ret v, s).
Proof.
  intros H Hk. unfold getitem.
  rewrite (bind_Ret _ _ _ _ _ (load_run _ _ _ H)). by rewrite Hk.
Qed.

Lemma transmit_run cmd r bdy s d :
  heap s !! r = Some d ->
  _transmit cmd r bdy s =
    (Ret tt, set_trace (trace s ++ transmitted cmd d bdy) s).
Proof.
  intros H. unfold _transmit.
  rewrite (bind_Ret _ _ _ _ _ (load_run _ _ _ H)).
  cbv [bind logger_debug ws_send emit modify set_trace]. cbn.
  by rewrite <- app_assoc.
Qed.

(** ** [unsubscribe] *)

Lemma unsubscribe_absent id s :
  dict_mem id (subscriptions s) = false ->
  unsubscribe id s = (Raise (KeyError id), s).
Proof. intros H. unfold unsubscribe, bind, get_state. by rewrite H. Qed.

Lemma unsubscribe_present id s :
  dict_mem id (subscriptions s) = true ->
  unsubscribe id s =
    (Ret tt,
     set_trace (trace s ++ transmitted "UNSUBSCRIBE" [("id", id)] None)
       (set_heap (heap s ++ [[("id", id)]])
          (set_subscriptions (dict_del id (subscriptions s)) s))).
Proof.
  intros H. unfold unsubscribe, bind at 1, get_state. rewrite H. cbn.
  erewrite transmit_run by (cbn; apply lookup_alloc). reflexivity.
Qed.

(** ** Frame conditions: what a method leaves related *)

Create HintDb respects.

Section Respects.
Variable R : state -> state -> Prop.
Hypothesis R_pre : PreOrder R.
Hypothesis R_trace : forall t s, R s (set_trace t s).
Hypothesis R_heap : forall h s, R s (set_heap h s).
Hypothesis R_opened : forall s, R s (set_opened true s).
Hypothesis R_disconnected : forall s, R s (set_connected false s).
Hypothesis R_registered :
  forall k v s, R s (set_subscriptions (dict_set k v (subscriptions s)) s).
Hypothesis R_removed :
  forall k s, R s (set_subscriptions (dict_del k (subscriptions s)) s).
Hypothesis R_callbacks : forall c e p s, R s (set_callbacks c e p s).
Hypothesis R_ws_on_close : forall s, R s (set_ws_on_close false s).

Lemma respects_ret {A} (a : A) : respects R (ret a).
Proof. intros s r s' [= <- <-]. reflexivity. Qed.

Lemma respects_raise {A} e : respects R (@raise A e).
Proof. intros s r s' [= <- <-]. reflexivity. Qed.

Lemma respects_get_state : respects R get_state.
Proof. intros s r s' [= <- <-]. reflexivity. Qed.

Lemma respects_bind {A B} (m : M A) (k : A -> M B) :
  respects R m -> (forall a, respects R (k a)) -> respects R (bind m k).
Proof.
  intros Hm Hk s r s'. unfold bind.
  destruct (m s) as [[a|e|] s1] eqn:E; specialize (Hm _ _ _ E).
  - intros Hka. etransitivity; [exact Hm | exact (Hk _ _ _ _ Hka)].
  - by intros [= <- <-].
  - by intros [= <- <-].
Qed.

(** [bind] where the continuation is only known to respect [R] from
    the states the first action can end in. *)
Lemma respects_bind_state {B} (k : state -> M B) :
  (forall s, forall r s', k s s = (r, s') -> R s s') ->
  respects R (bind get_state k).
Proof. intros Hk s r s'. unfold bind, get_state. apply Hk. Qed.

Lemma respects_modify f : (forall s, R s (f s)) -> respects R (modify f).
Proof. intros Hf s r s' [= <- <-]. apply Hf. Qed.

Lemma respects_emit e : respects R (emit e).
Proof. apply respects_modify. intros s. apply R_trace. Qed.

Lemma respects_logger_debug msg : respects R (logger_debug msg).
Proof. apply respects_emit. Qed.

Lemma respects_ws_send out : respects R (ws_send out).
Proof. apply respects_emit. Qed.

Lemma respects_alloc d : respects R (alloc d).
Proof. intros s r s' [= <- <-]. apply R_heap. Qed.

Lemma respects_load r : respects R (load r).
Proof.
  intros s o s'. unfold load.
  destruct (heap s !! r); intros [= <- <-]; reflexivity.
Qed.

Lemma respects_or_empty h : respects R (or_empty h).
Proof. destruct h; [apply respects_ret | apply respects_alloc]. Qed.

Lemma respects_call cb a : respects R (call cb a).
Proof.
  destruct cb; [|apply respects_raise].
  apply respects_bind; [apply respects_emit | intros; apply respects_ret].
Qed.

#[local] Hint Resolve respects_ret respects_raise respects_get_state
  respects_emit respects_logger_debug respects_ws_send respects_alloc
  respects_load respects_or_empty respects_call : respects.

Ltac respects_tac :=
  repeat first
    [ progress (eauto 2 with respects)
    | apply respects_bind; [| intros ? ]
    | apply respects_modify; intros ?
    | match goal with
      | |- respects _ (match ?x with _ => _ end) => destruct x
      | |- respects _ (if ?x then _ else _) => destruct x
      | |- respects _ (let _ := _ in _) => cbv zeta
      end ].

Lemma respects_setitem r k v : respects R (setitem r k v).
Proof. unfold setitem. respects_tac. Qed.

Lemma respects_getitem r k : respects R (getitem r k).
Proof. unfold getitem. respects_tac. Qed.

Lemma respects_transmit cmd r bdy : respects R (_transmit cmd r bdy).
Proof. unfold _transmit. respects_tac. Qed.

#[local] Hint Resolve respects_setitem respects_getitem respects_transmit : respects.

Lemma respects_on_open : respects R _on_open.
Proof. unfold _on_open. respects_tac. Qed.

Lemma respects_clean_up : respects R _clean_up.
Proof. unfold _clean_up. respects_tac. Qed.

Lemma respects_on_close : respects R _on_close.
Proof. unfold _on_close, _clean_up. respects_tac. Qed.

Lemma respects_on_error e : respects R (_on_error e).
Proof. unfold _on_error. respects_tac. Qed.

Lemma respects_send dst h b : respects R (send dst h b).
Proof. unfold send. respects_tac. Qed.

Lemma respects_unsubscribe id : respects R (unsubscribe id).
Proof.
  intros s r s'. unfold unsubscribe, bind at 1, get_state.
  destruct (dict_mem id (subscriptions s));
    [|intros [= <- <-]; reflexivity].
  erewrite bind_Ret by reflexivity. intros E.
  etransitivity; [apply (R_removed id)|].
  assert (Hrest : respects R (do h <- alloc [("id", id)] ;;
                              _transmit "UNSUBSCRIBE" h None))
    by respects_tac.
  exact (Hrest _ _ _ E).
Qed.

#[local] Hint Resolve respects_on_open respects_on_close respects_on_error
  respects_unsubscribe : respects.

Lemma respects_unsubscribe_closure h : respects R (unsubscribe_closure h).
Proof.
  unfold unsubscribe_closure. respects_tac.
Qed.

Lemma respects_ack mid sub h : respects R (ack mid sub h).
Proof. unfold ack. respects_tac. Qed.

Lemma respects_nack mid sub h : respects R (nack mid sub h).
Proof. unfold nack. respects_tac. Qed.

(** Minting an id: the counter moves up by one from where it stands. *)
Lemma respects_mint h :
  (forall s, R s (set_counter (S (counter s)) s)) ->
  respects R
    (do s <- get_state ;;
     do _ <- setitem h "id" ("sub-" +:+ str_nat (counter s)) ;;
     modify (set_counter (S (counter s)))).
Proof.
  intros R_minted. apply respects_bind_state. intros s r s'.
  unfold setitem, bind, load, modify.
  destruct (heap s !! h) as [d|]; intros [= <- <-]; [|reflexivity].
  etransitivity; [apply R_heap|].
  exact (R_minted (set_heap (<[h := dict_set "id" ("sub-" +:+ str_nat (counter s)) d]>
                              (heap s)) s)).
Qed.

Lemma respects_subscribe dst cb h :
  (forall s, R s (set_counter (S (counter s)) s)) ->
  respects R (subscribe dst cb h).
Proof.
  intros R_minted. pose proof (respects_mint) as Hmint.
  unfold subscribe.
  apply respects_bind; [respects_tac | intros h0].
  apply respects_bind; [respects_tac | intros d].
  apply respects_bind; [|intros _; respects_tac].
  destruct (negb (dict_mem "id" d)); [by apply Hmint | respects_tac].
Qed.

(** Dispatch: only that of a CONNECTED frame needs [R] to allow
    [connected] to be set. *)
Lemma respects_on_message message :
  (is_connected_frame message -> forall s, R s (set_connected true s)) ->
  respects R (_on_message message).
Proof.
  intros Hnc. unfold _on_message.
  destruct (decide (message = LF)) as [|Hne]; [respects_tac|].
  destruct (unmarshall_single message) as [e|frame] eqn:Hu; [respects_tac|].
  destruct (decide (command frame = "CONNECTED")) as [Hc|_]; [|respects_tac].
  assert (R_connected : forall s, R s (set_connected true s)).
  { apply Hnc. split; [done|]. by exists frame. }
  respects_tac.
Qed.

Lemma respects_deliver sg : respects R (deliver sg).
Proof.
  destruct sg; cbn [deliver]; respects_tac.
Qed.

Lemma respects_deliver_all sigs : respects R (deliver_all sigs).
Proof.
  induction sigs as [|sg sigs IH]; cbn [deliver_all]; [respects_tac|].
  apply respects_bind; [apply respects_deliver | intros _; exact IH].
Qed.

#[local] Hint Resolve respects_deliver_all : respects.

Lemma respects_sleep sigs : respects R (sleep sigs).
Proof. unfold sleep. respects_tac. Qed.

#[local] Hint Resolve respects_sleep : respects.

Lemma respects_connect_wait fuel timeout env k total_ms :
  respects R (_connect_wait fuel timeout env k total_ms).
Proof.
  revert k total_ms.
  induction fuel as [|fuel IH]; intros k total_ms; cbn [_connect_wait].
  - respects_tac. intros s r s' [= <- <-]. reflexivity.
  - respects_tac.
Qed.

#[local] Hint Resolve respects_connect_wait : respects.

Lemma respects__connect fuel env timeout pint ptmo vssl :
  respects R (_connect fuel env timeout pint ptmo vssl).
Proof. unfold _connect. respects_tac. Qed.

#[local] Hint Resolve respects__connect : respects.

Lemma respects_connect fuel env login passcode host h ccb ecb pcb tmo pint
    ptmo vssl :
  respects R (connect fuel env login passcode host h ccb ecb pcb tmo pint
                ptmo vssl).
Proof. unfold connect. respects_tac. Qed.

Lemma respects_unsubscribe_each ids : respects R (unsubscribe_each ids).
Proof.
  induction ids as [|id ids IH]; cbn [unsubscribe_each]; [respects_tac|].
  apply respects_bind; [apply respects_unsubscribe | intros _; exact IH].
Qed.

Lemma respects_disconnect cb h : respects R (disconnect cb h).
Proof.
  pose proof respects_unsubscribe_each.
  unfold disconnect, _clean_up. respects_tac.
Qed.

Lemma respects_discard {A} (m : M A) : respects R m -> respects R (discard m).
Proof. intros Hm. unfold discard. respects_tac. Qed.

(** Every transition: only a CONNECTED dispatch needs [R] to allow
    [connected] to be set, and only a [subscribe] the counter to move. *)
Lemma respects_exec o :
  (forall m, o = OnMessage m -> is_connected_frame m ->
             forall s, R s (set_connected true s)) ->
  (forall dst cb h, o = Subscribe dst cb h ->
                    forall s, R s (set_counter (S (counter s)) s)) ->
  respects R (exec o).
Proof.
  intros Hmsg Hsub. destruct o; cbn [exec].
  - apply respects_on_open.
  - apply respects_on_close.
  - apply respects_on_error.
  - apply respects_ws_send.
  - apply respects_logger_debug.
  - apply respects_discard, respects_on_message. by eapply Hmsg.
  - apply respects_connect.
  - apply respects_disconnect.
  - apply respects_send.
  - apply respects_discard, respects_subscribe. by eapply Hsub.
  - apply respects_unsubscribe.
  - apply respects_unsubscribe_closure.
  - apply respects_ack.
  - apply respects_nack.
  - apply respects_discard, respects_alloc.
Qed.
End Respects.

(** ** Running the public operations *)

Lemma or_empty_run hdrs s :
  or_empty hdrs s = (Ret (resolve hdrs s).1, (resolve hdrs s).2).
Proof. by destruct hdrs. Qed.

Lemma resolve_lookup hdrs s d :
  contents hdrs s = Some d ->
  heap (resolve hdrs s).2 !! (resolve hdrs s).1 = Some d.
Proof.
  destruct hdrs; cbn; [done|]. intros [= <-]. apply lookup_alloc.
Qed.

Lemma insert_lookup_same (h : list headers_t) r d d' :
  h !! r = Some d -> <[r := d']> h !! r = Some d'.
Proof. intros H. apply list_lookup_insert_eq. by eapply lookup_lt_Some. Qed.

Lemma bind_assoc {A B C} (m : M A) (f : A -> M B) (k : B -> M C) s :
  bind (bind m f) k s = bind m (fun a => bind (f a) k) s.
Proof. unfold bind. by destruct (m s) as [[a|e|] s1]. Qed.

Ltac lookup_tac :=
  cbn; rewrite ?dict_get_set_ne by done;
  eauto 6 using insert_lookup_same, lookup_alloc, dict_get_set_eq.

(** Evaluate the next primitive action of a method. *)
Ltac mrun :=
  repeat first
    [ erewrite bind_Ret by
        first [ apply or_empty_run
              | eapply setitem_run; lookup_tac
              | eapply getitem_run; [solve [lookup_tac] | lookup_tac]
              | eapply load_run; lookup_tac
              | eapply transmit_run; lookup_tac
              | reflexivity ]
    | erewrite transmit_run by lookup_tac
    | rewrite bind_assoc
    | progress cbn [fst snd resolve] ].

(** Two descriptions of the same final state. *)
Ltac state_eq :=
  lazy beta iota zeta delta
    [set_heap set_trace set_subscriptions set_counter set_connected
     set_opened set_callbacks set_ws_on_close
     url opened connected counter subscriptions _connectCallback
     errorCallback pingCallback ws_on_close heap trace];
  rewrite ?list_insert_insert_eq, <- ?app_assoc;
  try reflexivity.

Lemma ack_run mid sub hdrs s d :
  contents hdrs s = Some d ->
  let d' := dict_set "subscription" sub (dict_set "message-id" mid d) in
  ack mid sub hdrs s =
    (Ret tt,
     set_trace (trace s ++ transmitted "ACK" d' None)
       (set_heap (<[(resolve hdrs s).1 := d']> (heap (resolve hdrs s).2))
          (resolve hdrs s).2)).
Proof.
  intros Hd d'. subst d'. unfold ack.
  destruct hdrs as [r|]; cbn in Hd; [|injection Hd as <-]; mrun; state_eq.
Qed.

Lemma nack_run mid sub hdrs s d :
  contents hdrs s = Some d ->
  let d' := dict_set "subscription" sub (dict_set "message-id" mid d) in
  nack mid sub hdrs s =
    (Ret tt,
     set_trace (trace s ++ transmitted "NACK" d' None)
       (set_heap (<[(resolve hdrs s).1 := d']> (heap (resolve hdrs s).2))
          (resolve hdrs s).2)).
Proof.
  intros Hd d'. subst d'. unfold nack.
  destruct hdrs as [r|]; cbn in Hd; [|injection Hd as <-]; mrun; state_eq.
Qed.

Lemma send_run dst hdrs bdy s d :
  contents hdrs s = Some d ->
  let d' := dict_set "destination" dst d in
  send dst hdrs bdy s =
    (Ret tt,
     set_trace
       (trace s ++ transmitted "SEND" d'
                     (Some (match bdy with Some b => b | None => "" end)))
       (set_heap (<[(resolve hdrs s).1 := d']> (heap (resolve hdrs s).2))
          (resolve hdrs s).2)).
Proof.
  intros Hd d'. subst d'. unfold send.
  destruct hdrs as [r|]; cbn in Hd; [|injection Hd as <-]; mrun; state_eq.
Qed.

Lemma dict_mem_Some {V} k (d : list (string * V)) v :
  dict_get k d = Some v -> dict_mem k d = true.
Proof. unfold dict_mem. by intros ->. Qed.

(** [subscribe] when the caller's mapping carries no [id]: one is minted. *)
Lemma subscribe_run_minted dst cb hdrs s d :
  contents hdrs s = Some d ->
  dict_get "id" d = None ->
  let id := "sub-" +:+ str_nat (counter s) in
  let d' := dict_set "destination" dst (dict_set "id" id d) in
  let h := (resolve hdrs s).1 in
  subscribe dst cb hdrs s =
    (Ret (id, h),
     set_trace (trace s ++ transmitted "SUBSCRIBE" d' None)
       (set_subscriptions (dict_set id cb (subscriptions s))
          (set_counter (S (counter s))
             (set_heap (<[h := d']> (heap (resolve hdrs s).2))
                (resolve hdrs s).2)))).
Proof.
  intros Hd Hid id d' h. subst id d' h. unfold subscribe.
  apply dict_mem_false in Hid.
  destruct hdrs as [r|]; cbn in Hd; [|injection Hd as <-];
    cbn [resolve]; mrun; rewrite Hid; cbn [negb]; mrun; state_eq.
Qed.

(** [subscribe] when the caller's mapping already carries an [id]. *)
Lemma subscribe_run_supplied dst cb r s d id :
  heap s !! r = Some d ->
  dict_get "id" d = Some id ->
  let d' := dict_set "destination" dst d in
  subscribe dst cb (Some r) s =
    (Ret (id, r),
     set_trace (trace s ++ transmitted "SUBSCRIBE" d' None)
       (set_subscriptions (dict_set id cb (subscriptions s))
          (set_heap (<[r := d']> (heap s)) s))).
Proof.
  intros Hd Hid d'. subst d'. unfold subscribe.
  mrun. rewrite (dict_mem_Some _ _ _ Hid). cbn [negb]. mrun. state_eq.
Qed.

(** ** [disconnect] *)

Lemma unsubscribe_each_run d s :
  subscriptions s = d ->
  unsubscribe_each (dict_keys d) s =
    (Ret tt,
     set_trace (trace s ++ unsubscribe_events (dict_keys d))
       (set_heap (heap s ++ unsubscribe_dicts (dict_keys d))
          (set_subscriptions [] s))).
Proof.
  revert s. induction d as [|[k v] d IH]; intros s Hs.
  - cbn. unfold ret. f_equal. destruct s; cbn in *; subst.
    unfold set_trace, set_heap, set_subscriptions; cbn.
    by rewrite !app_nil_r.
  - cbn [dict_keys map fst unsubscribe_each].
    erewrite bind_Ret; cycle 1.
    { apply unsubscribe_present. rewrite Hs. unfold dict_mem. cbn.
      by rewrite decide_True. }
    rewrite Hs. cbn [dict_del]. rewrite decide_True by done.
    fold (dict_keys d). rewrite IH by done.
    unfold unsubscribe_events, unsubscribe_dicts. cbn [flat_map map].
    state_eq.
Qed.

Lemma disconnect_run cb hdrs s d :
  contents hdrs s = Some d ->
  let ids := dict_keys (subscriptions s) in
  disconnect cb hdrs s =
    (Ret tt,
     set_trace
       (trace s ++ unsubscribe_events ids ++ transmitted "DISCONNECT" d None
                ++ [EvWsClose] ++ callback_events cb (torn_down (opened s)))
       (set_connected false
          (set_ws_on_close false
             (set_heap (heap (resolve hdrs s).2 ++ unsubscribe_dicts ids)
                (set_subscriptions [] (resolve hdrs s).2))))).
Proof.
  intros Hd ids. subst ids. unfold disconnect, _clean_up.
  destruct hdrs as [r|]; cbn in Hd; [|injection Hd as <-]; mrun;
    (erewrite bind_Ret by (apply unsubscribe_each_run; reflexivity));
    (erewrite bind_Ret by
       (eapply transmit_run; cbn; apply lookup_app_l_Some;
        first [exact Hd | apply lookup_alloc]));
    mrun;
    destruct cb as [c|]; cbn [callback_events call]; mrun; state_eq;
    rewrite ?app_nil_r; reflexivity.
Qed.

(** ** Inbound dispatch *)

Lemma on_message_heartbeat s :
  _on_message LF s =
    match pingCallback s with
    | None => (Raise (AttributeError "pingCallback"), heartbeat_logged s)
    | Some None => (Raise none_not_callable, heartbeat_logged s)
    | Some (Some c) =>
        (Ret None,
         set_trace (trace s ++ [EvLog "<<< PONG"; EvCall c (ArgMessage LF)]) s)
    end.
Proof.
  unfold _on_message. rewrite decide_True by done.
  cbv [bind logger_debug emit modify get_state]. cbn.
  destruct (pingCallback s) as [[c|]|]; cbn; try reflexivity.
  cbv [bind emit modify ret]. cbn. state_eq.
Qed.

(** Dispatch of a MESSAGE frame, branch by branch. *)
Lemma on_message_MESSAGE message frame s :
  message <> LF ->
  unmarshall_single message = inr frame ->
  command frame = "MESSAGE" ->
  let s1 := frame_received message s in
  _on_message message s =
    match dict_get "subscription" (headers frame) with
    | None => (Raise (KeyError "subscription"), s1)
    | Some subscription =>
        match dict_get subscription (subscriptions s) with
        | Some onreceive =>
            match dict_get "message-id" (headers frame) with
            | None => (Raise (KeyError "message-id"), s1)
            | Some messageID =>
                let arg := ArgFrame frame (Some (messageID, subscription)) in
                match onreceive with
                | Some c =>
                    (Ret (Some [VReturned c arg]),
                     set_trace (trace s1 ++ [EvCall c arg]) s1)
                | None => (Raise none_not_callable, s1)
                end
            end
        | None =>
            let info := "Unhandled received MESSAGE: " +:+ frame_str frame in
            (Ret (Some [VInfo info]), set_trace (trace s1 ++ [EvLog info]) s1)
        end
    end.
Proof.
  intros Hne Hu Hc s1. subst s1. unfold _on_message.
  rewrite decide_False by done.
  erewrite bind_Ret by reflexivity. erewrite bind_Ret by reflexivity.
  rewrite Hu, Hc. rewrite decide_False by done. rewrite decide_True by done.
  destruct (dict_get "subscription" (headers frame)) as [sub|];
    [|unfold raise, frame_received; f_equal; state_eq].
  erewrite bind_Ret by reflexivity. cbn [subscriptions set_trace].
  destruct (dict_get sub (subscriptions s)) as [[c|]|];
    [destruct (dict_get "message-id" (headers frame)) as [mid|]
    |destruct (dict_get "message-id" (headers frame)) as [mid|] |];
    cbv [bind call raise ret logger_debug emit modify frame_received];
    cbn; f_equal; state_eq.
Qed.

(** Dispatch of a CONNECTED frame. *)
Lemma on_message_CONNECTED message frame s :
  message <> LF ->
  unmarshall_single message = inr frame ->
  command frame = "CONNECTED" ->
  let s1 := set_connected true (frame_received message s) in
  let s2 := set_trace (trace s1 ++ [EvLog ("connected to server " +:+ url s)]) s1 in
  _on_message message s =
    match _connectCallback s with
    | Some c =>
        (Ret (Some [VReturned c (ArgFrame frame None)]),
         set_trace (trace s2 ++ [EvCall c (ArgFrame frame None)]) s2)
    | None => (Ret (Some []), s2)
    end.
Proof.
  intros Hne Hu Hc s1 s2. subst s1 s2. unfold _on_message.
  rewrite decide_False by done.
  erewrite bind_Ret by reflexivity. erewrite bind_Ret by reflexivity.
  rewrite Hu, Hc. rewrite decide_True by done.
  destruct (_connectCallback s) as [c|] eqn:E;
    cbv [bind call raise ret logger_debug emit modify frame_received
         get_state];
    cbn; rewrite E; cbn; f_equal; state_eq.
Qed.

(** Whatever is dispatched, the codec sees the message exactly when it is
    not a heartbeat, and a heartbeat reaches callbacks only as itself. *)
Lemma on_message_events message s :
  exists t,
    trace (_on_message message s).2 = trace s ++ t /\
    unmarshalled t = (if decide (message = LF) then [] else [message]) /\
    (message = LF -> forall c a, (c, a) ∈ calls t -> a = ArgMessage LF).
Proof.
  destruct (decide (message = LF)) as [->|Hne].
  - rewrite on_message_heartbeat.
    destruct (pingCallback s) as [[c|]|]; cbn; eexists;
      (split; [reflexivity|]); (split; [reflexivity|]); intros _ c' a; cbn;
      try (intros []%elem_of_nil).
    intros [=]%list_elem_of_singleton. by subst.
  - unfold _on_message. rewrite decide_False by done.
    erewrite bind_Ret by reflexivity. erewrite bind_Ret by reflexivity.
    cbn [trace].
    destruct (unmarshall_single message) as [e|frame];
      repeat first
        [ progress cbv [bind call raise ret logger_debug emit modify
                        get_state set_connected set_trace]
        | progress cbn [trace subscriptions _connectCallback errorCallback
                        fst snd]
        | match goal with
          | |- context [decide ?P] => destruct (decide P)
          | |- context [match dict_get ?k ?d with _ => _ end] =>
              destruct (dict_get k d)
          | |- context [match ?x with Some _ => _ | None => _ end] =>
              destruct x
          end ];
      eexists; rewrite <- ?app_assoc;
      (split; [reflexivity|]); (split; [reflexivity | done]).
Qed.

(** ** The connect wait *)

Lemma deliver_run sg s :
  exists s' t,
    deliver sg s = (Ret tt, s') /\
    trace s' = trace s ++ t /\ forallb is_log t = true /\
    ws_on_close s' = ws_on_close s /\
    (opened s = true \/ signals_opened (ws_on_close s) sg = true ->
     opened s' = true).
Proof.
  destruct sg as [|e|]; cbn [deliver signals_opened].
  - exists (set_opened true s), []. cbn. rewrite app_nil_r. tauto.
  - unfold _on_error.
    cbv [bind get_state modify logger_debug emit ret]. cbn.
    destruct (opened s) eqn:E; cbn; eexists _, [_]; cbn;
      (split; [reflexivity|]); split_and!; auto.
  - cbv [bind get_state]. destruct (ws_on_close s) eqn:W.
    + unfold _on_close, _clean_up.
      cbv [bind get_state modify logger_debug emit ret]. cbn.
      destruct (opened s) eqn:E; cbn; eexists _, [_]; cbn;
        (split; [reflexivity|]); split_and!; auto.
    + exists s, []. cbn. rewrite app_nil_r. split_and!; auto.
      intros [?|?]; [done | discriminate].
Qed.

Lemma deliver_all_run sigs s :
  exists s' t,
    deliver_all sigs s = (Ret tt, s') /\
    trace s' = trace s ++ t /\ forallb is_log t = true /\
    ws_on_close s' = ws_on_close s /\
    (opened s = true \/
       (exists sg, sg ∈ sigs /\ signals_opened (ws_on_close s) sg = true) ->
     opened s' = true).
Proof.
  revert s. induction sigs as [|sg sigs IH]; intros s; cbn [deliver_all].
  - exists s, []. cbn. rewrite app_nil_r. split_and!; auto.
    intros [?|(sg & []%elem_of_nil & _)]; done.
  - destruct (deliver_run sg s) as (s1 & t1 & E1 & Ht1 & Hl1 & Hw1 & Ho1).
    destruct (IH s1) as (s2 & t2 & E2 & Ht2 & Hl2 & Hw2 & Ho2).
    exists s2, (t1 ++ t2). rewrite (bind_Ret _ _ _ _ _ E1).
    split; [exact E2|]. split_and!.
    + by rewrite Ht2, Ht1, app_assoc.
    + rewrite forallb_app, Hl1, Hl2. done.
    + congruence.
    + intros [Ho|(sg' & Hin & Hs)].
      * apply Ho2. left. apply Ho1. by left.
      * apply elem_of_cons in Hin as [->|Hin].
        -- apply Ho2. left. apply Ho1. by right.
        -- apply Ho2. right. exists sg'. by rewrite Hw1.
Qed.

Lemma sleep_silent s :
  sleep [] s = (Ret tt, set_trace (trace s ++ [EvSleep]) s).
Proof. reflexivity. Qed.

(** With a positive timeout and a silent transport the loop raises at
    the first poll whose running total exceeds the timeout. *)
Lemma connect_wait_times_out env timeout (m : nat) :
  (forall j, env j = []) -> 0 < timeout ->
  forall fuel k total_ms s,
    opened s = false ->
    total_ms + 250 * Z.of_nat m <= timeout < total_ms + 250 * Z.of_nat (S m) ->
    (S m <= fuel)%nat ->
    _connect_wait fuel timeout env k total_ms s =
      (Raise (timed_out s),
       set_trace (trace s ++ replicate (S m) EvSleep) s).
Proof.
  intros Henv HT. induction m as [|m IH]; intros fuel k tot s Ho Hb Hf;
    (destruct fuel as [|fuel]; [lia|]); cbn [_connect_wait];
    unfold bind at 1, get_state; rewrite Ho;
    rewrite Henv, (bind_Ret _ _ _ _ _ (sleep_silent s)).
  - assert (E : (0 <? timeout) && (timeout <? tot + 250) = true).
    { apply andb_true_iff. split; [apply Z.ltb_lt | apply Z.ltb_lt]; lia. }
    rewrite E. unfold raise, timed_out. reflexivity.
  - assert (E : (0 <? timeout) && (timeout <? tot + 250) = false).
    { apply andb_false_iff. right. apply Z.ltb_ge. lia. }
    rewrite E. rewrite IH; [| done | lia | lia].
    unfold timed_out. cbn [url set_trace trace]. f_equal. state_eq.
Qed.

(** Without a timeout and with a silent transport the loop is still
    polling when the fuel is spent. *)
Lemma connect_wait_polls_on env timeout :
  (forall j, env j = []) -> timeout <= 0 ->
  forall fuel k total_ms s,
    opened s = false ->
    _connect_wait fuel timeout env k total_ms s =
      (Diverge, set_trace (trace s ++ replicate fuel EvSleep) s).
Proof.
  intros Henv HT. induction fuel as [|fuel IH]; intros k tot s Ho;
    cbn [_connect_wait]; unfold bind at 1, get_state; rewrite Ho.
  - f_equal. cbn. state_eq. rewrite app_nil_r. by destruct s.
  - rewrite Henv, (bind_Ret _ _ _ _ _ (sleep_silent s)).
    assert (E : (0 <? timeout) = false) by (apply Z.ltb_ge; lia).
    rewrite E. cbn [andb]. rewrite IH by done.
    cbn [url set_trace trace]. f_equal. state_eq.
Qed.

Lemma sleep_run sigs s :
  exists s' t,
    sleep sigs s = (Ret tt, s') /\
    trace s' = trace s ++ EvSleep :: t /\ forallb is_log t = true /\
    ws_on_close s' = ws_on_close s /\
    (opened s = true \/
       (exists sg, sg ∈ sigs /\ signals_opened (ws_on_close s) sg = true) ->
     opened s' = true).
Proof.
  unfold sleep. erewrite bind_Ret by reflexivity.
  destruct (deliver_all_run sigs (set_trace (trace s ++ [EvSleep]) s))
    as (s' & t & E & Ht & Hl & Hw & Ho).
  exists s', t. cbn in Ht, Hw, Ho. rewrite <- app_assoc in Ht. done.
Qed.

Lemma connect_wait_opened fuel timeout env k total_ms s :
  opened s = true -> _connect_wait fuel timeout env k total_ms s = (Ret tt, s).
Proof.
  intros Ho. destruct fuel; cbn [_connect_wait];
    unfold bind, get_state; by rewrite Ho.
Qed.

(** Without a timeout the loop never raises, whatever the transport does. *)
Lemma connect_wait_never_raises env timeout :
  timeout <= 0 ->
  forall fuel k total_ms s e s',
    _connect_wait fuel timeout env k total_ms s <> (Raise e, s').
Proof.
  intros HT. induction fuel as [|fuel IH]; intros k tot s e s';
    cbn [_connect_wait]; unfold bind at 1, get_state;
    destruct (opened s); try done.
  destruct (sleep_run (env k) s) as (s1 & t & E & _).
  rewrite (bind_Ret _ _ _ _ _ E).
  assert (F : (0 <? timeout) = false) by (apply Z.ltb_ge; lia).
  rewrite F. cbn [andb]. apply IH.
Qed.

Lemma sleeps_app t1 t2 : sleeps (t1 ++ t2) = (sleeps t1 + sleeps t2)%nat.
Proof. unfold sleeps. by rewrite filter_app, length_app. Qed.

Lemma sleeps_logs t : forallb is_log t = true -> sleeps t = 0%nat.
Proof.
  unfold sleeps. induction t as [|[] t IH]; cbn; done.
Qed.

(** The loop returns at the first poll after the transport has signalled,
    provided the deadline, if there is one, has not passed by then. *)
Lemma connect_wait_returns env timeout (m : nat) :
  forall fuel k total_ms s,
    opened s = false ->
    (forall j, (j < m)%nat -> env (k + j)%nat = []) ->
    (exists sg, sg ∈ env (k + m)%nat /\
                signals_opened (ws_on_close s) sg = true) ->
    timeout <= 0 \/ total_ms + 250 * Z.of_nat (S m) <= timeout ->
    (m < fuel)%nat ->
    exists s',
      _connect_wait fuel timeout env k total_ms s = (Ret tt, s') /\
      opened s' = true /\
      sleeps (trace s') = (sleeps (trace s) + S m)%nat.
Proof.
  induction m as [|m IH]; intros fuel k tot s Ho Hsil Hsig HT Hf;
    (destruct fuel as [|fuel]; [lia|]); cbn [_connect_wait];
    unfold bind at 1, get_state; rewrite Ho;
    destruct (sleep_run (env k) s) as (s1 & t & E & Ht & Hl & Hw & Hop);
    rewrite (bind_Ret _ _ _ _ _ E);
    assert (F : (0 <? timeout) && (timeout <? tot + 250) = false)
      by (apply andb_false_iff;
          destruct HT; [left | right]; apply Z.ltb_ge; lia);
    rewrite F.
  - rewrite Nat.add_0_r in Hsig.
    rewrite connect_wait_opened by (apply Hop; by right).
    eexists; split; [reflexivity|]. split; [apply Hop; by right|].
    rewrite Ht. change (EvSleep :: t) with ([EvSleep] ++ t).
    rewrite !sleeps_app, (sleeps_logs t) by done.
    change (sleeps [EvSleep]) with 1%nat. lia.
  - assert (Hk : env k = []) by (rewrite <- (Nat.add_0_r k); apply Hsil; lia).
    rewrite Hk, sleep_silent in E. injection E as <-.
    destruct (IH fuel (S k) (tot + 250) (set_trace (trace s ++ [EvSleep]) s))
      as (s' & E' & Ho' & Hs'); [done | | | lia | lia |].
    + intros j Hj. replace (S k + j)%nat with (k + S j)%nat by lia.
      apply Hsil. lia.
    + replace (S k + m)%nat with (k + S m)%nat by lia. exact Hsig.
    + exists s'. split; [exact E'|]. split; [done|].
      rewrite Hs'. cbn [trace set_trace]. rewrite sleeps_app.
      change (sleeps [EvSleep]) with 1%nat. lia.
Qed.

(** ** [connect] *)

Lemma same_but_flags_pre : PreOrder same_but_flags.
Proof.
  split.
  - intros s. by repeat split.
  - intros s1 s2 s3 H12 H23. unfold same_but_flags in *.
    destruct_and!. repeat split; congruence.
Qed.

Lemma connect_wait_frame fuel env timeout pint ptmo vssl s r s' :
  _connect fuel env timeout pint ptmo vssl s = (r, s') -> same_but_flags s s'.
Proof.
  apply (respects__connect same_but_flags same_but_flags_pre);
    intros; by repeat split.
Qed.

Lemma connect_wait_trace fuel timeout env k total_ms s :
  exists t,
    trace (_connect_wait fuel timeout env k total_ms s).2 = trace s ++ t /\
    forallb is_wait_event t = true.
Proof.
  revert k total_ms s. induction fuel as [|fuel IH]; intros k tot s;
    cbn [_connect_wait]; unfold bind at 1, get_state;
    (destruct (opened s); [exists []; by rewrite app_nil_r|]).
  - exists []. by rewrite app_nil_r.
  - destruct (sleep_run (env k) s) as (s1 & t & E & Ht & Hl & _).
    rewrite (bind_Ret _ _ _ _ _ E).
    assert (Hw : forallb is_wait_event (EvSleep :: t) = true).
    { cbn. clear -Hl. induction t as [|[] t IHt]; cbn in *; auto; discriminate. }
    destruct ((0 <? timeout) && (timeout <? tot + 250)).
    + exists (EvSleep :: t). done.
    + destruct (IH (S k) (tot + 250) s1) as (t' & Ht' & Hl').
      exists ((EvSleep :: t) ++ t'). rewrite Ht', Ht, <- app_assoc.
      split; [done|]. by rewrite forallb_app, Hw, Hl'.
Qed.

Lemma sent_app t1 t2 : sent (t1 ++ t2) = sent t1 ++ sent t2.
Proof. induction t1 as [|[] t1 IH]; cbn; by rewrite ?IH. Qed.

Lemma calls_app t1 t2 : calls (t1 ++ t2) = calls t1 ++ calls t2.
Proof. induction t1 as [|[] t1 IH]; cbn; by rewrite ?IH. Qed.

Lemma unmarshalled_app t1 t2 :
  unmarshalled (t1 ++ t2) = unmarshalled t1 ++ unmarshalled t2.
Proof. induction t1 as [|[] t1 IH]; cbn; by rewrite ?IH. Qed.

Lemma sent_wait_events t : forallb is_wait_event t = true -> sent t = [].
Proof. induction t as [|[] t IH]; cbn; auto; discriminate. Qed.

(** A [connect] that returns has waited, and then built and sent the
    CONNECT frame. *)
Lemma connect_returned fuel env login passcode host hdrs ccb ecb pcb tmo pint
    ptmo vssl s s' d :
  contents hdrs s = Some d ->
  connect fuel env login passcode host hdrs ccb ecb pcb tmo pint ptmo vssl s
    = (Ret tt, s') ->
  exists s1 t,
    same_but_flags s s1 /\
    trace s1 = trace s ++ t /\ sent t = [] /\
    let d' := connect_headers (url s) login passcode host pint d in
    s' = set_trace (trace s1 ++ transmitted "CONNECT" d' None)
           (set_callbacks ccb ecb pcb
              (set_heap (<[(resolve hdrs s1).1 := d']> (heap (resolve hdrs s1).2))
                 (resolve hdrs s1).2)).
Proof.
  intros Hd. unfold connect. erewrite bind_Ret by reflexivity.
  set (s0 := set_trace (trace s ++ [EvLog "Opening web socket..."]) s).
  destruct (_connect fuel env tmo pint ptmo vssl s0) as [[[]|e|] s1] eqn:E;
    [rewrite (bind_Ret _ _ _ _ _ E)
    | rewrite (bind_Raise _ _ _ _ _ E); discriminate
    | rewrite (bind_Diverge _ _ _ _ E); discriminate].
  intros Htail.
  pose proof (connect_wait_frame _ _ _ _ _ _ _ _ _ E) as Hfr.
  destruct Hfr as (Hurl & Hheap & Hrest). change (url s0) with (url s) in Hurl.
  change (heap s0) with (heap s) in Hheap.
  assert (Hd1 : contents hdrs s1 = Some d).
  { destruct hdrs; cbn in *; [by rewrite Hheap | done]. }
  destruct (connect_wait_trace fuel tmo env 0%nat 0 
              (set_trace (trace s0 ++ [EvRunForever pint ptmo vssl]) s0))
    as (t & Ht & Hl).
  unfold _connect in E. erewrite bind_Ret in E by reflexivity.
  rewrite E in Ht. cbn [snd trace set_trace] in Ht.
  exists s1, ([EvLog "Opening web socket..."; EvRunForever pint ptmo vssl] ++ t).
  split; [by repeat split; destruct_and?|].
  split; [rewrite Ht; subst s0; cbn; by rewrite <- !app_assoc|].
  split; [rewrite sent_app; cbn; by apply sent_wait_events|].
  cbv zeta. rewrite <- Hurl. unfold connect_headers.
  clear -Htail Hd1.
  destruct hdrs as [r|]; cbn in Hd1; [|injection Hd1 as <-];
    destruct login as [l|], passcode as [p|];
    revert Htail; mrun; intros [= <-]; state_eq.
Qed.

(** Once the wait has returned, the rest of [connect] runs to the end. *)
Lemma connect_after_wait fuel env login passcode host hdrs ccb ecb pcb tmo pint
    ptmo vssl s s1 d :
  contents hdrs s = Some d ->
  _connect fuel env tmo pint ptmo vssl
    (set_trace (trace s ++ [EvLog "Opening web socket..."]) s) = (Ret tt, s1) ->
  let d' := connect_headers (url s) login passcode host pint d in
  connect fuel env login passcode host hdrs ccb ecb pcb tmo pint ptmo vssl s
    = (Ret tt,
       set_trace (trace s1 ++ transmitted "CONNECT" d' None)
         (set_callbacks ccb ecb pcb
            (set_heap (<[(resolve hdrs s1).1 := d']> (heap (resolve hdrs s1).2))
               (resolve hdrs s1).2))).
Proof.
  intros Hd E. unfold connect. erewrite bind_Ret by reflexivity.
  rewrite (bind_Ret _ _ _ _ _ E).
  destruct (connect_wait_frame _ _ _ _ _ _ _ _ _ E) as (Hurl & Hheap & _).
  cbn [heap url set_trace] in Hheap, Hurl.
  assert (Hd1 : contents hdrs s1 = Some d).
  { destruct hdrs; cbn in *; [by rewrite Hheap | done]. }
  cbv zeta. rewrite <- Hurl. unfold connect_headers. clear -Hd1.
  destruct hdrs as [r|]; cbn in Hd1; [|injection Hd1 as <-];
    destruct login as [l|], passcode as [p|]; mrun; state_eq.
Qed.

(** When the transport opens before the deadline, [connect] returns. *)
Lemma connect_on_open fuel env login passcode host hdrs ccb ecb pcb tmo pint
    ptmo vssl s d (m : nat) :
  contents hdrs s = Some d ->
  opened s = false ->
  (forall j, (j < m)%nat -> env j = []) ->
  SigOpen ∈ env m ->
  tmo <= 0 \/ 250 * Z.of_nat (S m) <= tmo ->
  (m < fuel)%nat ->
  exists s1,
    same_but_flags s s1 /\
    let d' := connect_headers (url s) login passcode host pint d in
    connect fuel env login passcode host hdrs ccb ecb pcb tmo pint ptmo vssl s
      = (Ret tt,
         set_trace (trace s1 ++ transmitted "CONNECT" d' None)
           (set_callbacks ccb ecb pcb
              (set_heap (<[(resolve hdrs s1).1 := d']> (heap (resolve hdrs s1).2))
                 (resolve hdrs s1).2))).
Proof.
  intros Hd Ho Hsil Hsig HT Hf.
  set (s0 := set_trace (trace s ++ [EvLog "Opening web socket..."]) s).
  set (s0' := set_trace (trace s0 ++ [EvRunForever pint ptmo vssl]) s0).
  destruct (connect_wait_returns env tmo m fuel 0%nat 0 s0')
    as (s1 & E & _); [done | done | by exists SigOpen | lia | done |].
  assert (E0 : _connect fuel env tmo pint ptmo vssl s0 = (Ret tt, s1)).
  { unfold _connect. erewrite bind_Ret by reflexivity. exact E. }
  exists s1. split.
  - exact (connect_wait_frame _ _ _ _ _ _ _ _ _ E0).
  - exact (connect_after_wait fuel env login passcode host hdrs ccb ecb pcb
             tmo pint ptmo vssl s s1 d Hd E0).
Qed.

(** ** The registry is a dictionary in every reachable state *)

Lemma keeps_registry_pre : PreOrder keeps_registry.
Proof.
  split; [intros s Hs; exact Hs|].
  intros s1 s2 s3 H12 H23 Hs. apply H23, H12, Hs.
Qed.

Lemma step_keeps_registry s o s' : step s o s' -> keeps_registry s s'.
Proof.
  intros [_ (r & E & _)].
  eapply (respects_exec keeps_registry keeps_registry_pre); try exact E;
    try (intros; intros Hwf; exact Hwf).
  - intros k v s0 Hwf. by apply dict_wf_set.
  - intros k s0 Hwf. by apply dict_wf_del.
Qed.

Lemma reachable_registry_wf u s : reachable u s -> dict_wf (subscriptions s).
Proof.
  induction 1 as [|s o s' _ IH Hstep].
  - apply NoDup_nil_2.
  - by apply (step_keeps_registry s o s').
Qed.

(** ** The registry and the dispatch *)

(** C7: [unsubscribe(id)] on an id that is not in the subscription
    registry fails ([del] raises [KeyError], the unknown-subscription
    error) and leaves the whole state as it was, so no UNSUBSCRIBE frame is
    transmitted and the registry is unchanged; on an id that is present it
    removes that entry and no other, and transmits one UNSUBSCRIBE frame
    whose only header is [id] with that value. *)
Theorem unsubscribe_spec (id : string) (s : state) :
  dict_wf (subscriptions s) ->
  (dict_mem id (subscriptions s) = false ->
     unsubscribe id s = (Raise (KeyError id), s)) /\
  (dict_mem id (subscriptions s) = true ->
     exists s',
       unsubscribe id s = (Ret tt, s') /\
       dict_get id (subscriptions s') = None /\
       (forall k, k <> id ->
          dict_get k (subscriptions s') = dict_get k (subscriptions s)) /\
       S (length (subscriptions s')) = length (subscriptions s) /\
       sent (trace s') =
         sent (trace s) ++ [marshall "UNSUBSCRIBE" [("id", id)] None]).
Proof.
  intros Hwf. split; [apply unsubscribe_absent|].
  intros Hin. eexists. split; [by apply unsubscribe_present|].
  cbn [subscriptions trace set_trace set_heap set_subscriptions].
  split_and!.
  - by apply dict_get_del_eq.
  - intros k Hk. by apply dict_get_del_ne.
  - by apply dict_length_del.
  - by rewrite sent_app.
Qed.

(** C2: from a registry holding N subscriptions, [disconnect] transmits
    N UNSUBSCRIBE frames, one per subscription in registry order and each
    carrying that subscription's id, then one DISCONNECT frame and nothing
    else; it empties the registry, unbinds and closes the transport, leaves
    [connected] false, and the disconnect callback, when there is one, is
    the last thing that happens: it is called once, after every frame has
    been sent and the transport closed, on a client that it finds torn down
    already, with nothing registered, [connected] false and the close
    handler unbound. *)
Theorem disconnect_spec (cb : option callback) (hdrs : option ref)
    (s : state) (d : headers_t) (N : nat) :
  contents hdrs s = Some d ->
  length (subscriptions s) = N ->
  exists s',
    disconnect cb hdrs s = (Ret tt, s') /\
    let ids := dict_keys (subscriptions s) in
    length ids = N /\
    sent (trace s') =
      sent (trace s)
        ++ map (fun id => marshall "UNSUBSCRIBE" [("id", id)] None) ids
        ++ [marshall "DISCONNECT" d None] /\
    trace s' =
      trace s ++ unsubscribe_events ids ++ transmitted "DISCONNECT" d None
              ++ [EvWsClose] ++ callback_events cb (torn_down (opened s)) /\
    subscriptions s' = [] /\
    connected s' = false /\
    ws_on_close s' = false.
Proof.
  intros Hd HN. eexists. split; [by apply disconnect_run|].
  cbn [subscriptions connected ws_on_close trace set_trace set_heap
       set_subscriptions set_connected set_ws_on_close].
  split_and!; try done.
  - unfold dict_keys. by rewrite length_map.
  - assert (E : forall ids, sent (unsubscribe_events ids) =
              map (fun id => marshall "UNSUBSCRIBE" [("id", id)] None) ids).
    { unfold unsubscribe_events.
      induction ids as [|i ids IH]; cbn; [done | by rewrite IH]. }
    rewrite !sent_app, E. do 2 f_equal. cbn. by destruct cb.
Qed.

(** C4: whatever message arrives, [Frame.unmarshall_single] is applied to
    it exactly when it is not the single newline: a heartbeat is never
    handed to the codec, and no callback is ever given a frame made from
    it. *)
Theorem heartbeat_never_unmarshalled (message : string) (s : state) :
  exists t,
    trace (_on_message message s).2 = trace s ++ t /\
    unmarshalled t = (if decide (message = LF) then [] else [message]) /\
    (message = LF ->
       forall c a, (c, a) ∈ calls t -> a = ArgMessage LF).
Proof. apply on_message_events. Qed.

(** The [else] branch of the MESSAGE dispatch: a MESSAGE frame whose
    [subscription] header names an id that is not a key of the registry
    invokes no callback and does not raise; dispatch
    returns the one-entry list holding the diagnostic text, which it also
    logs, and the state is left as it was apart from the trace, so the
    registry and the flags [opened] and [connected] are unchanged. *)
Theorem unknown_subscription_is_diagnostic (message : string) (frame : Frame)
    (sub : string) (s : state) :
  message <> LF ->
  unmarshall_single message = inr frame ->
  command frame = "MESSAGE" ->
  dict_get "subscription" (headers frame) = Some sub ->
  dict_get sub (subscriptions s) = None ->
  let info := "Unhandled received MESSAGE: " +:+ frame_str frame in
  let t := [EvLog (LF +:+ "<<< " +:+ message); EvUnmarshal message;
            EvLog info] in
  _on_message message s = (Ret (Some [VInfo info]), set_trace (trace s ++ t) s) /\
  calls t = [] /\ sent t = [] /\
  subscriptions (set_trace (trace s ++ t) s) = subscriptions s /\
  opened (set_trace (trace s ++ t) s) = opened s /\
  connected (set_trace (trace s ++ t) s) = connected s.
Proof.
  intros Hne Hu Hc Hsub Hreg info t.
  rewrite (on_message_MESSAGE _ _ _ Hne Hu Hc), Hsub, Hreg.
  split_and!; try reflexivity.
  subst info t. unfold frame_received. f_equal. state_eq.
Qed.

(** ** The connect wait and its timeout *)

(** C1: while the transport signals nothing, [connect] with a positive
    timeout T raises the timeout error instead of returning, at the first
    poll whose running total exceeds T, which is at most one 250 ms poll
    beyond T; with timeout 0 the wait never raises, is still polling
    however long it is observed while the transport stays silent, and
    returns at the first poll after the transport has signalled. *)
Theorem connect_timeout_spec (s : state) (login passcode host : option string)
    (hdrs : option ref) (ccb ecb pcb : option callback) (pint : Z)
    (ptmo : option Z) (vssl : bool) :
  opened s = false ->
  (forall (timeout : Z) (env : nat -> list signal),
     0 < timeout -> (forall k, env k = []) ->
     exists polls : nat,
       timeout < 250 * Z.of_nat polls <= timeout + 250 /\
       forall fuel, (polls <= fuel)%nat ->
         connect fuel env login passcode host hdrs ccb ecb pcb timeout pint
           ptmo vssl s =
           (Raise (timed_out s),
            set_trace
              (trace s ++ [EvLog "Opening web socket...";
                           EvRunForever pint ptmo vssl]
                       ++ replicate polls EvSleep) s)) /\
  (forall (env : nat -> list signal) fuel e s',
     _connect fuel env 0 pint ptmo vssl s <> (Raise e, s')) /\
  (forall (env : nat -> list signal) fuel,
     (forall k, env k = []) ->
     _connect fuel env 0 pint ptmo vssl s =
       (Diverge,
        set_trace (trace s ++ [EvRunForever pint ptmo vssl]
                           ++ replicate fuel EvSleep) s)) /\
  (forall (env : nat -> list signal) (m fuel : nat),
     (forall j, (j < m)%nat -> env j = []) ->
     (exists sg, sg ∈ env m /\ signals_opened (ws_on_close s) sg = true) ->
     (m < fuel)%nat ->
     exists s',
       _connect fuel env 0 pint ptmo vssl s = (Ret tt, s') /\
       opened s' = true /\
       sleeps (trace s') = (sleeps (trace s) + S m)%nat).
Proof.
  intros Ho. split_and!.
  - intros timeout env HT Henv.
    exists (S (Z.to_nat (timeout / 250))).
    assert (Hdiv : 250 * (timeout / 250) <= timeout < 250 * (timeout / 250 + 1)).
    { pose proof (Z.mul_div_le timeout 250).
      pose proof (Z.mul_succ_div_gt timeout 250). lia. }
    assert (0 <= timeout / 250) by (apply Z.div_pos; lia).
    split; [lia|]. intros fuel Hf. unfold connect, _connect.
    erewrite bind_Ret by reflexivity.
    erewrite bind_Raise; [reflexivity|].
    erewrite bind_Ret by reflexivity.
    erewrite connect_wait_times_out; [| done | done | done | | exact Hf].
    + f_equal. state_eq.
    + lia.
  - intros env fuel e s'. unfold _connect.
    erewrite bind_Ret by reflexivity. by apply connect_wait_never_raises.
  - intros env fuel Henv. unfold _connect.
    erewrite bind_Ret by reflexivity.
    rewrite connect_wait_polls_on by done. f_equal. state_eq.
  - intros env m fuel Hsil Hsig Hf. unfold _connect.
    erewrite bind_Ret by reflexivity.
    destruct (connect_wait_returns env 0 m fuel 0%nat 0
                (set_trace (trace s ++ [EvRunForever pint ptmo vssl]) s))
      as (s' & E & Ho' & Hs'); try done; [lia|].
    exists s'. split; [done|]. split; [done|].
    rewrite Hs'. cbn [trace set_trace]. rewrite sleeps_app.
    change (sleeps [EvRunForever pint ptmo vssl]) with 0%nat. lia.
Qed.

(** ** Subscription identifiers and routing *)

Lemma minted_ids_NoDup c n : NoDup (minted_ids c n).
Proof.
  unfold minted_ids. apply NoDup_fmap_2; [|apply NoDup_seq].
  intros a b H. apply (inj (String.app "sub-")) in H.
  by apply (inj pretty) in H.
Qed.

Lemma subscribe_each_minted calls :
  forall s,
    no_id_supplied calls s ->
    exists s',
      subscribe_each calls s = (Ret (minted_ids (counter s) (length calls)), s') /\
      counter s' = (counter s + length calls)%nat.
Proof.
  induction calls as [|[[dst cb] hdrs] calls IH]; intros s Hno.
  - exists s. cbn. split; [done | lia].
  - destruct Hno as [(d & Hd & Hid) Hrest].
    pose proof (subscribe_run_minted dst cb hdrs s d Hd Hid) as E.
    cbv zeta in E. rewrite E in Hrest. cbn [snd] in Hrest.
    destruct (IH _ Hrest) as (s' & E' & Hc').
    cbn [counter set_trace set_subscriptions set_counter] in E', Hc'.
    exists s'. cbn [subscribe_each length].
    rewrite (bind_Ret _ _ _ _ _ E), (bind_Ret _ _ _ _ _ E').
    split; [reflexivity | lia].
Qed.

(** C5: the calls of any run of [subscribe] in which none supplies an [id]
    header all return, and the ids they return are, in call order, [sub-c],
    [sub-(c+1)], ... from the value [c] of the counter at the start ([sub-0],
    [sub-1], ... on a new client), hence pairwise distinct; and when a
    MESSAGE frame names a registered id in its [subscription] header, no
    callback runs but the one registered under that id, which is called
    once with the frame and its ack/nack handles when the frame has a
    [message-id]. *)
Theorem subscription_ids_and_routing :
  (forall calls s,
     no_id_supplied calls s ->
     exists s',
       subscribe_each calls s =
         (Ret (minted_ids (counter s) (length calls)), s') /\
       NoDup (minted_ids (counter s) (length calls)) /\
       (counter s = 0%nat ->
        forall i, (i < length calls)%nat ->
          minted_ids (counter s) (length calls) !! i
            = Some ("sub-" +:+ str_nat i))) /\
  (forall message frame sub onreceive s,
     message <> LF ->
     unmarshall_single message = inr frame ->
     command frame = "MESSAGE" ->
     dict_get "subscription" (headers frame) = Some sub ->
     dict_get sub (subscriptions s) = Some onreceive ->
     exists t,
       trace (_on_message message s).2 = trace s ++ t /\
       (forall c a, (c, a) ∈ calls t -> onreceive = Some c) /\
       (forall c mid,
          onreceive = Some c ->
          dict_get "message-id" (headers frame) = Some mid ->
          calls t = [(c, ArgFrame frame (Some (mid, sub)))] /\
          (_on_message message s).1 =
            Ret (Some [VReturned c (ArgFrame frame (Some (mid, sub)))]))).
Proof.
  split.
  - intros calls s Hno.
    destruct (subscribe_each_minted calls s Hno) as (s' & E & _).
    exists s'. split; [done|]. split; [apply minted_ids_NoDup|].
    intros -> i Hi. unfold minted_ids.
    rewrite list_lookup_fmap, lookup_seq_lt by done. reflexivity.
  - intros message frame sub onreceive s Hne Hu Hc Hsub Hreg.
    rewrite (on_message_MESSAGE _ _ _ Hne Hu Hc), Hsub, Hreg.
    destruct (dict_get "message-id" (headers frame)) as [mid|] eqn:Hmid;
      [destruct onreceive as [c|]|]; cbn [fst snd].
    + exists [EvLog (LF +:+ "<<< " +:+ message); EvUnmarshal message;
              EvCall c (ArgFrame frame (Some (mid, sub)))].
      split; [unfold frame_received; cbn; by rewrite <- app_assoc|].
      split.
      * intros c' a. cbn. intros [=]%list_elem_of_singleton. by subst.
      * intros c' mid' [= <-] [= <-]. done.
    + exists [EvLog (LF +:+ "<<< " +:+ message); EvUnmarshal message].
      split; [done|]. split; [intros c a; cbn; by intros ?%elem_of_nil|].
      intros c mid' [=].
    + exists [EvLog (LF +:+ "<<< " +:+ message); EvUnmarshal message].
      split; [done|]. split; [intros c a; cbn; by intros ?%elem_of_nil|].
      intros c mid' _ [=].
Qed.

(** ** The CONNECT frame, the [connected] flag and the caller's mapping *)

Lemma connect_headers_lookup u login passcode host pint d :
  let d' := connect_headers u login passcode host pint d in
  dict_get "host" d' = Some (match host with Some x => x | None => u end) /\
  dict_get "accept-version" d' = Some "1.0,1.1,1.2" /\
  dict_get "heart-beat" d'
    = Some (str_int (pint * 1000) +:+ "," +:+ str_int (pint * 1000)) /\
  dict_get "login" d'
    = match login with Some l => Some l | None => dict_get "login" d end /\
  dict_get "passcode" d'
    = match passcode with Some p => Some p | None => dict_get "passcode" d end /\
  (forall k, k ∉ mandated_keys -> k <> "login" -> k <> "passcode" ->
             dict_get k d' = dict_get k d).
Proof.
  cbv zeta. unfold connect_headers, mandated_keys.
  split_and!; try (intros k Hk Hl Hp;
                   rewrite !not_elem_of_cons in Hk; destruct_and!);
    destruct login, passcode;
    rewrite ?dict_get_set_eq, ?dict_get_set_ne by done;
    rewrite ?dict_get_set_eq, ?dict_get_set_ne by done;
    rewrite ?dict_get_set_eq, ?dict_get_set_ne by done;
    reflexivity.
Qed.

(** C8, as the code has it: a [connect] that returns has sent exactly one
    frame, a CONNECT frame whose headers are the caller's mapping with
    [host] set to the host argument (the URL when there is none),
    [accept-version] set to "1.0,1.1,1.2" and [heart-beat] set to "n,n" for
    n = 1000 times the interval argument; [login] and [passcode] are set to
    their arguments when these are supplied and are otherwise as the caller's
    mapping has them, absent when the caller gave none; every other header
    of the caller is passed on as it is. *)
Theorem connect_frame_headers fuel env login passcode host hdrs ccb ecb pcb
    tmo pint ptmo vssl (s s' : state) (d : headers_t) :
  contents hdrs s = Some d ->
  connect fuel env login passcode host hdrs ccb ecb pcb tmo pint ptmo vssl s
    = (Ret tt, s') ->
  exists d',
    sent (trace s') = sent (trace s) ++ [marshall "CONNECT" d' None] /\
    dict_get "host" d'
      = Some (match host with Some x => x | None => url s end) /\
    dict_get "accept-version" d' = Some "1.0,1.1,1.2" /\
    dict_get "heart-beat" d'
      = Some (str_int (pint * 1000) +:+ "," +:+ str_int (pint * 1000)) /\
    dict_get "login" d'
      = match login with Some l => Some l | None => dict_get "login" d end /\
    dict_get "passcode" d'
      = match passcode with
        | Some p => Some p
        | None => dict_get "passcode" d
        end /\
    (forall k, k ∉ mandated_keys -> k <> "login" -> k <> "passcode" ->
               dict_get k d' = dict_get k d).
Proof.
  intros Hd E.
  destruct (connect_returned _ _ _ _ _ _ _ _ _ _ _ _ _ _ _ _ Hd E)
    as (s1 & t & _ & Ht & Hs & ->).
  exists (connect_headers (url s) login passcode host pint d).
  split; [|apply connect_headers_lookup].
  cbn [trace set_trace]. rewrite Ht, !sent_app, Hs, app_nil_r. reflexivity.
Qed.

Lemma stays_disconnected_pre : PreOrder stays_disconnected.
Proof.
  split; [intros s H; exact H |].
  intros s1 s2 s3 H12 H23 H. apply H12, H23, H.
Qed.

Lemma is_connected_frame_dec message :
  {is_connected_frame message} + {~ is_connected_frame message}.
Proof.
  unfold is_connected_frame.
  destruct (decide (message = LF)) as [->|Hne]; [right; by intros [? _]|].
  destruct (unmarshall_single message) as [e|frame] eqn:Hu.
  - right. intros [_ (f & [=] & _)].
  - destruct (decide (command frame = "CONNECTED")) as [Hc|Hc].
    + left. split; [done|]. by exists frame.
    + right. intros [_ (f & [= <-] & Hc')]. done.
Qed.

Lemma on_close_disconnects s : connected (_on_close s).2 = false.
Proof.
  unfold _on_close, _clean_up.
  cbv [bind get_state modify logger_debug emit ret].
  by destruct (opened s).
Qed.

(** C9: in every reachable state, a transition that takes [connected]
    from false to true is the dispatch of an inbound message that the
    codec reads as a CONNECTED frame, such a dispatch does leave
    [connected] true, and the transport's close callback always leaves
    [connected] false. *)
Theorem connected_flag_transitions (u : string) (s : state) (o : op)
    (s' : state) :
  reachable u s ->
  step s o s' ->
  (connected s = false -> connected s' = true ->
     exists message, o = OnMessage message /\ is_connected_frame message) /\
  (forall message,
     o = OnMessage message -> is_connected_frame message ->
     connected s' = true) /\
  (o = OnClose -> connected s' = false).
Proof.
  intros _ [Hen (r & E & Hr)]. split_and!.
  - intros Hs Hs'.
    assert (Hcases : (exists message, o = OnMessage message /\
                                      is_connected_frame message) \/
                     (forall m, o = OnMessage m -> ~ is_connected_frame m)).
    { destruct o; try (right; intros m [=]; fail).
      destruct (is_connected_frame_dec message) as [Hc|Hc].
      - left. by exists message.
      - right. by intros m [= <-]. }
    destruct Hcases as [?|Hmsg]; [done|]. exfalso.
    assert (Hk : stays_disconnected s s').
    { eapply (respects_exec stays_disconnected stays_disconnected_pre);
        try exact E;
        try (intros m Hm Hc; destruct (Hmsg m Hm Hc));
        intros; by intros ?. }
    specialize (Hk Hs'). congruence.
  - intros message -> [Hne (frame & Hu & Hc)]. cbn [exec] in E.
    unfold discard in E.
    pose proof (on_message_CONNECTED message frame s Hne Hu Hc) as Hm.
    cbv zeta in Hm.
    destruct (_connectCallback s);
      rewrite (bind_Ret _ _ _ _ _ Hm) in E; injection E as _ <-; done.
  - intros ->. cbn [exec] in E.
    pose proof (on_close_disconnects s) as H. by rewrite E in H.
Qed.

(** C10, as the code has it: [subscribe], [send], [ack], [nack] and
    [connect] write into the caller's own mapping and make no copy of it (no
    object is created): after [subscribe] returns it holds [id] (the id
    returned) and [destination]; after [send], [destination]; after [ack]
    and [nack], [message-id] and [subscription] with the values of the call,
    whatever the caller had put under those keys; after [connect], which
    returns when the transport opens before the deadline, [host],
    [accept-version] and [heart-beat].  Keys the operation does not name
    keep the caller's values.  [disconnect] takes a headers mapping as well
    and writes nothing into it: the DISCONNECT frame is built from the
    caller's mapping as it is, and the mapping is as before afterwards. *)
Theorem headers_mutated_in_place (r : ref) (d : headers_t) (s : state) :
  heap s !! r = Some d ->
  (forall dst cb,
     exists id s' d',
       subscribe dst cb (Some r) s = (Ret (id, r), s') /\
       heap s' !! r = Some d' /\ length (heap s') = length (heap s) /\
       dict_get "id" d' = Some id /\
       dict_get "destination" d' = Some dst /\
       (forall k, k <> "id" -> k <> "destination" ->
                  dict_get k d' = dict_get k d)) /\
  (forall dst bdy,
     exists s' d',
       send dst (Some r) bdy s = (Ret tt, s') /\
       heap s' !! r = Some d' /\ length (heap s') = length (heap s) /\
       dict_get "destination" d' = Some dst /\
       (forall k, k <> "destination" -> dict_get k d' = dict_get k d)) /\
  (forall mid sub,
     exists s' d',
       ack mid sub (Some r) s = (Ret tt, s') /\
       heap s' !! r = Some d' /\ length (heap s') = length (heap s) /\
       dict_get "message-id" d' = Some mid /\
       dict_get "subscription" d' = Some sub /\
       (forall k, k <> "message-id" -> k <> "subscription" ->
                  dict_get k d' = dict_get k d)) /\
  (forall mid sub,
     exists s' d',
       nack mid sub (Some r) s = (Ret tt, s') /\
       heap s' !! r = Some d' /\ length (heap s') = length (heap s) /\
       dict_get "message-id" d' = Some mid /\
       dict_get "subscription" d' = Some sub /\
       (forall k, k <> "message-id" -> k <> "subscription" ->
                  dict_get k d' = dict_get k d)) /\
  (forall fuel env (m : nat) login passcode host ccb ecb pcb tmo pint ptmo vssl,
     opened s = false ->
     (forall j, (j < m)%nat -> env j = []) ->
     SigOpen ∈ env m ->
     tmo <= 0 \/ 250 * Z.of_nat (S m) <= tmo ->
     (m < fuel)%nat ->
     exists s' d',
       connect fuel env login passcode host (Some r) ccb ecb pcb tmo pint ptmo
         vssl s = (Ret tt, s') /\
       heap s' !! r = Some d' /\ length (heap s') = length (heap s) /\
       dict_get "host" d'
         = Some (match host with Some x => x | None => url s end) /\
       dict_get "accept-version" d' = Some VERSIONS /\
       dict_get "heart-beat" d' = Some (heart_beat pint) /\
       (forall k, k ∉ mandated_keys -> k <> "login" -> k <> "passcode" ->
                  dict_get k d' = dict_get k d)) /\
  (forall fuel env login passcode host ccb ecb pcb tmo pint ptmo vssl s',
     connect fuel env login passcode host (Some r) ccb ecb pcb tmo pint ptmo
       vssl s = (Ret tt, s') ->
     exists d',
       heap s' !! r = Some d' /\ length (heap s') = length (heap s) /\
       dict_get "host" d'
         = Some (match host with Some x => x | None => url s end) /\
       dict_get "accept-version" d' = Some VERSIONS /\
       dict_get "heart-beat" d' = Some (heart_beat pint)) /\
  (forall cb,
     exists s',
       disconnect cb (Some r) s = (Ret tt, s') /\
       heap s' !! r = Some d /\
       sent (trace s') =
         sent (trace s)
           ++ map (fun id => marshall "UNSUBSCRIBE" [("id", id)] None)
                (dict_keys (subscriptions s))
           ++ [marshall "DISCONNECT" d None]).
Proof.
  intros Hd. split_and!.
  - intros dst cb. destruct (dict_get "id" d) as [id|] eqn:Hid.
    + eexists id, _, _.
      split; [by apply (subscribe_run_supplied dst cb r s d id)|].
      cbn [heap set_trace set_subscriptions set_heap].
      split; [by eapply insert_lookup_same|].
      split; [apply length_insert|]. split_and!.
      * by rewrite dict_get_set_ne.
      * apply dict_get_set_eq.
      * intros k _ Hk. by rewrite dict_get_set_ne.
    + eexists _, _, _.
      split; [by apply (subscribe_run_minted dst cb (Some r) s d)|].
      cbn [heap set_trace set_subscriptions set_heap set_counter resolve
           fst snd].
      split; [by eapply insert_lookup_same|].
      split; [apply length_insert|]. split_and!.
      * rewrite dict_get_set_ne by done. apply dict_get_set_eq.
      * apply dict_get_set_eq.
      * intros k Hk1 Hk2. by rewrite !dict_get_set_ne.
  - intros dst bdy. eexists _, _.
    split; [by apply (send_run dst (Some r) bdy s d)|].
    cbn [heap set_trace set_heap resolve fst snd].
    split; [by eapply insert_lookup_same|].
    split; [apply length_insert|]. split; [apply dict_get_set_eq|].
    intros k Hk. by rewrite dict_get_set_ne.
  - intros mid sub. eexists _, _.
    split; [by apply (ack_run mid sub (Some r) s d)|].
    cbn [heap set_trace set_heap resolve fst snd].
    split; [by eapply insert_lookup_same|].
    split; [apply length_insert|]. split_and!.
    + rewrite dict_get_set_ne by done. apply dict_get_set_eq.
    + apply dict_get_set_eq.
    + intros k Hk1 Hk2. by rewrite !dict_get_set_ne.
  - intros mid sub. eexists _, _.
    split; [by apply (nack_run mid sub (Some r) s d)|].
    cbn [heap set_trace set_heap resolve fst snd].
    split; [by eapply insert_lookup_same|].
    split; [apply length_insert|]. split_and!.
    + rewrite dict_get_set_ne by done. apply dict_get_set_eq.
    + apply dict_get_set_eq.
    + intros k Hk1 Hk2. by rewrite !dict_get_set_ne.
  - intros fuel env m login passcode host ccb ecb pcb tmo pint ptmo vssl
      Ho Hsil Hsig HT Hf.
    destruct (connect_on_open fuel env login passcode host (Some r) ccb ecb
                pcb tmo pint ptmo vssl s d m Hd Ho Hsil Hsig HT Hf)
      as (s1 & Hfr & E).
    destruct Hfr as (_ & Hheap & _).
    eexists _, _. split; [exact E|].
    cbn [heap set_trace set_heap set_callbacks resolve fst snd].
    rewrite Hheap.
    split; [by eapply insert_lookup_same|].
    split; [apply length_insert|].
    pose proof (connect_headers_lookup (url s) login passcode host pint d)
      as (Hh & Ha & Hb & _ & _ & Hk).
    done.
  - intros fuel env login passcode host ccb ecb pcb tmo pint ptmo vssl s' E.
    destruct (connect_returned _ _ _ _ _ (Some r) _ _ _ _ _ _ _ _ _ d Hd E)
      as (s1 & t & Hfr & _ & _ & ->).
    destruct Hfr as (_ & Hheap & _).
    cbn [heap set_trace set_heap set_callbacks resolve fst snd].
    rewrite Hheap. eexists.
    split; [by eapply insert_lookup_same|].
    split; [apply length_insert|].
    pose proof (connect_headers_lookup (url s) login passcode host pint d)
      as (Hh & Ha & Hb & _).
    done.
  - intros cb. eexists. split; [by apply (disconnect_run cb (Some r) s d)|].
    cbn [heap trace set_trace set_connected set_ws_on_close set_heap
         set_subscriptions resolve fst snd].
    split; [by apply lookup_app_l_Some|].
    assert (E : forall ids, sent (unsubscribe_events ids) =
              map (fun id => marshall "UNSUBSCRIBE" [("id", id)] None) ids).
    { unfold unsubscribe_events.
      induction ids as [|i ids IH]; cbn; [done | by rewrite IH]. }
    rewrite !sent_app, E. do 2 f_equal. cbn. by destruct cb.
Qed.

(** ** Heartbeats *)

(** A heartbeat goes to the heartbeat callback when one is registered;
    the call is not guarded, so it raises when [connect] was given none,
    and when [connect] has never run. *)
Lemma heartbeat_dispatch (s : state) :
  (forall c, pingCallback s = Some (Some c) ->
     _on_message LF s =
       (Ret None,
        set_trace (trace s ++ [EvLog "<<< PONG"; EvCall c (ArgMessage LF)]) s)) /\
  (pingCallback s = Some None ->
     _on_message LF s = (Raise none_not_callable, heartbeat_logged s)) /\
  (pingCallback s = None ->
     _on_message LF s =
       (Raise (AttributeError "pingCallback"), heartbeat_logged s)).
Proof.
  rewrite on_message_heartbeat.
  split_and!; [intros c H | intros H | intros H]; by rewrite H.
Qed.

(** * Further properties of the engine *)

(** ** What no transition undoes *)

Lemma stays_opened_pre : PreOrder stays_opened.
Proof.
  split; [intros s Hs; exact Hs|].
  intros s1 s2 s3 H12 H23 Hs. apply H23, H12, Hs.
Qed.

Lemma counter_grows_pre : PreOrder counter_grows.
Proof.
  split; [intros s; unfold counter_grows; lia|].
  intros s1 s2 s3. unfold counter_grows. lia.
Qed.

Lemma counter_kept_pre : PreOrder counter_kept.
Proof.
  split; [by intros s|]. intros s1 s2 s3. unfold counter_kept. congruence.
Qed.

Lemma stays_unbound_pre : PreOrder stays_unbound.
Proof.
  split; [intros s Hs; exact Hs|].
  intros s1 s2 s3 H12 H23 Hs. apply H23, H12, Hs.
Qed.

(** X1: the liveness flag [opened] is never switched off: whatever
    transition runs from a state in which it is set, transport callback or
    public operation, returning or raising, it is still set afterwards. *)
Theorem opened_is_never_reset (s : state) (o : op) (s' : state) :
  step s o s' -> opened s = true -> opened s' = true.
Proof.
  intros [_ (r & E & _)].
  eapply (respects_exec stays_opened stays_opened_pre); try exact E;
    intros; intros Ho; first [exact Ho | reflexivity].
Qed.

(** X2: no transition lowers the subscription counter, and only
    [subscribe] moves it: [unsubscribe] and [disconnect] leave it where it
    is, so an id minted later never repeats one minted earlier. *)
Theorem counter_never_decreases (s : state) (o : op) (s' : state) :
  step s o s' ->
  (counter s <= counter s')%nat /\
  ((forall dst cb hdrs, o <> Subscribe dst cb hdrs) -> counter s' = counter s).
Proof.
  intros [_ (r & E & _)]. split.
  - eapply (respects_exec counter_grows counter_grows_pre); try exact E;
      intros; unfold counter_grows; cbn; lia.
  - intros Hns.
    eapply (respects_exec counter_kept counter_kept_pre); try exact E;
      try (intros; reflexivity).
    intros dst cb h ->. destruct (Hns dst cb h eq_refl).
Qed.

(** X3: once [disconnect] has unbound [ws.on_close], nothing binds it
    again: in every run of transitions that starts after a [disconnect], the
    close callback [_on_close] never runs, and the handler is unbound at the
    end. *)
Theorem close_handler_stays_unbound (cb : option callback) (hdrs : option ref)
    (d : headers_t) (s s1 : state) (ops : list op) (s2 : state) :
  contents hdrs s = Some d ->
  disconnect cb hdrs s = (Ret tt, s1) ->
  steps s1 ops s2 ->
  (OnClose ∉ ops) /\ ws_on_close s2 = false.
Proof.
  intros Hc Hd Hrun.
  assert (Hu : ws_on_close s1 = false).
  { rewrite (disconnect_run cb hdrs s d Hc) in Hd. by injection Hd as <-. }
  clear Hd. induction Hrun as [s1|s1 o s1' ops s2 Hstep Hrun IH].
  - split; [apply not_elem_of_nil | done].
  - assert (Hu' : ws_on_close s1' = false).
    { destruct Hstep as [_ (r & E & _)].
      eapply (respects_exec stays_unbound stays_unbound_pre); try exact E;
        try exact Hu; intros; intros Hw; first [exact Hw | reflexivity]. }
    destruct (IH Hu') as [Hnot Hend]. split; [|exact Hend].
    apply not_elem_of_cons. split; [|exact Hnot].
    intros <-. destruct Hstep as [Hen _]. cbn in Hen. congruence.
Qed.

(** X4: the callbacks that run in the transport's thread (open, close,
    error, ping, pong and the dispatch of any inbound message) touch nothing
    but the two flags and the trace: the registry, the counter, the stored
    callbacks, the caller's mappings and the binding of [ws.on_close] are as
    before.  In particular a lost connection leaves every subscription
    registered. *)
Theorem transport_callbacks_keep_engine_data (o : op) (s : state)
    (r : outcome unit) (s' : state) :
  is_transport_callback o = true ->
  exec o s = (r, s') ->
  same_but_flags s s'.
Proof.
  intros Hcb E.
  assert (Hres : respects same_but_flags (exec o)).
  { destruct o; try discriminate; cbn [exec].
    - apply (respects_on_open same_but_flags). intros; by repeat split.
    - apply (respects_on_close same_but_flags same_but_flags_pre);
        intros; by repeat split.
    - apply (respects_on_error same_but_flags same_but_flags_pre);
        intros; by repeat split.
    - apply (respects_ws_send same_but_flags). intros; by repeat split.
    - apply (respects_logger_debug same_but_flags). intros; by repeat split.
    - apply (respects_discard same_but_flags same_but_flags_pre).
      apply (respects_on_message same_but_flags same_but_flags_pre);
        intros; by repeat split. }
  exact (Hres _ _ _ E).
Qed.

(** ** More on the connect wait *)

Lemma connect_wait_negative timeout env :
  timeout < 0 ->
  forall fuel k total_ms s,
    _connect_wait fuel timeout env k total_ms s
      = _connect_wait fuel 0 env k total_ms s.
Proof.
  intros HT. induction fuel as [|fuel IH]; intros k tot s0; cbn [_connect_wait];
    rewrite !(bind_Ret get_state _ s0 s0 s0 eq_refl);
    destruct (opened s0); try reflexivity.
  destruct (sleep_run (env k) s0) as (s1 & t & E & _).
  rewrite !(bind_Ret _ _ _ _ _ E).
  assert (F : (0 <? timeout) = false) by (apply Z.ltb_ge; lia).
  rewrite F. change (0 <? 0) with false. cbn [andb]. apply IH.
Qed.

(** X6: a negative timeout is no timeout: the wait behaves exactly as
    with timeout 0, for every transport and every number of polls. *)
Theorem negative_timeout_is_no_timeout (timeout : Z) (fuel : nat)
    (env : nat -> list signal) (pint : Z) (ptmo : option Z) (vssl : bool)
    (s : state) :
  timeout < 0 ->
  _connect fuel env timeout pint ptmo vssl s
    = _connect fuel env 0 pint ptmo vssl s.
Proof.
  intros HT. unfold _connect.
  erewrite !bind_Ret by reflexivity. by apply connect_wait_negative.
Qed.

(** X7: on a client whose [opened] flag is already set, the wait of
    [connect] is no wait: for every timeout and whatever the transport does,
    [_connect] starts the transport thread and returns without a single
    poll.  The flag is set by an error or a close as well as by an open and
    is never reset, so the wait of a second [connect], or of a [connect]
    after a failed first attempt, does not wait for the transport to open. *)
Theorem wait_is_skipped_once_opened (s : state) (fuel : nat)
    (env : nat -> list signal) (tmo pint : Z) (ptmo : option Z)
    (vssl : bool) :
  opened s = true ->
  _connect fuel env tmo pint ptmo vssl s
    = (Ret tt, set_trace (trace s ++ [EvRunForever pint ptmo vssl]) s).
Proof.
  intros Ho. unfold _connect. erewrite bind_Ret by reflexivity.
  by apply connect_wait_opened.
Qed.

(** X8: the wait of [connect] ends on any notification that sets [opened],
    an error or a (bound) close as much as an open, with a positive timeout
    as with none: when the transport is silent for the first [m] polls,
    signals during the next one, and the deadline, if there is one, has not
    passed at that poll, [_connect] returns after poll [m+1] with [opened]
    set, having sent nothing and changed nothing but the flags.  The wait
    tells its caller nothing about whether the transport opened or failed. *)
Theorem wait_ends_on_any_signal (s : state) (env : nat -> list signal)
    (timeout : Z) (m fuel : nat) (pint : Z) (ptmo : option Z) (vssl : bool) :
  opened s = false ->
  (forall j, (j < m)%nat -> env j = []) ->
  (exists sg, sg ∈ env m /\ signals_opened (ws_on_close s) sg = true) ->
  timeout <= 0 \/ 250 * Z.of_nat (S m) <= timeout ->
  (m < fuel)%nat ->
  exists s',
    _connect fuel env timeout pint ptmo vssl s = (Ret tt, s') /\
    opened s' = true /\
    sleeps (trace s') = (sleeps (trace s) + S m)%nat /\
    sent (trace s') = sent (trace s) /\
    same_but_flags s s'.
Proof.
  intros Ho Hsil Hsig HT Hf.
  set (s0 := set_trace (trace s ++ [EvRunForever pint ptmo vssl]) s).
  destruct (connect_wait_returns env timeout m fuel 0%nat 0 s0)
    as (s1 & E & Ho1 & Hs1); [done | done | done | lia | done |].
  assert (E0 : _connect fuel env timeout pint ptmo vssl s = (Ret tt, s1)).
  { unfold _connect. erewrite bind_Ret by reflexivity. exact E. }
  destruct (connect_wait_trace fuel timeout env 0%nat 0 s0) as (t & Ht & Hl).
  rewrite E in Ht. cbn [snd] in Ht.
  exists s1. split; [exact E0|]. split; [exact Ho1|]. split_and!.
  - rewrite Hs1. subst s0. cbn [trace set_trace]. rewrite sleeps_app.
    change (sleeps [EvRunForever pint ptmo vssl]) with 0%nat. lia.
  - rewrite Ht. subst s0. cbn [trace set_trace].
    rewrite !sent_app, (sent_wait_events t Hl). cbn [sent].
    by rewrite !app_nil_r.
  - exact (connect_wait_frame _ _ _ _ _ _ _ _ _ E0).
Qed.

(** ** More on the registry *)

Lemma dict_length_set {V} k (v : V) d :
  length (dict_set k v d) = if dict_mem k d then length d else S (length d).
Proof.
  unfold dict_mem. induction d as [|[k0 v0] d IH]; cbn; [done|].
  destruct (decide (k = k0)); cbn; [done|].
  rewrite IH. by destruct (dict_get k d).
Qed.

Lemma dict_del_set_new {V} k (v : V) d :
  dict_get k d = None -> dict_del k (dict_set k v d) = d.
Proof.
  induction d as [|[k0 v0] d IH]; cbn.
  - intros _. by rewrite decide_True.
  - destruct (decide (k = k0)); [discriminate|]. intros Hd. cbn.
    rewrite decide_False by done. by rewrite IH.
Qed.

(** [subscribe] with a valid mapping, in one equation. *)
Lemma subscribe_run dst cb hdrs s d :
  contents hdrs s = Some d ->
  exists s',
    subscribe dst cb hdrs s
      = (Ret (subscription_id d s, (resolve hdrs s).1), s') /\
    subscriptions s'
      = dict_set (subscription_id d s) cb (subscriptions s) /\
    counter s' = (if dict_mem "id" d then counter s else S (counter s)) /\
    heap s' !! (resolve hdrs s).1
      = Some (dict_set "destination" dst
                (dict_set "id" (subscription_id d s) d)) /\
    length (heap s') = length (heap (resolve hdrs s).2) /\
    sent (trace s')
      = sent (trace s)
          ++ [marshall "SUBSCRIBE"
                (dict_set "destination" dst
                   (dict_set "id" (subscription_id d s) d)) None] /\
    opened s' = opened s /\ connected s' = connected s.
Proof.
  intros Hd. unfold subscription_id, dict_mem.
  destruct (dict_get "id" d) as [id|] eqn:Hid.
  - destruct hdrs as [r|]; cbn in Hd; [|injection Hd as <-; discriminate].
    eexists. split; [by apply (subscribe_run_supplied dst cb r s d id)|].
    cbn [subscriptions counter heap trace opened connected set_trace
         set_subscriptions set_heap resolve fst snd].
    assert (Hsame : dict_set "id" id d = d).
    { clear -Hid. induction d as [|[k0 v0] d IH]; cbn in *; [done|].
      destruct (decide ("id" = k0)) as [<-|]; [by injection Hid as ->|].
      by rewrite IH. }
    rewrite Hsame, sent_app, length_insert. split_and!; try done.
    by eapply insert_lookup_same.
  - eexists. split; [by apply (subscribe_run_minted dst cb hdrs s d)|].
    destruct hdrs as [r|]; cbn in Hd; [|injection Hd as <-];
      cbn [subscriptions counter heap trace opened connected set_trace
           set_subscriptions set_heap set_counter resolve fst snd];
      rewrite sent_app, length_insert; split_and!; try done;
      eapply insert_lookup_same; [exact Hd | apply lookup_alloc].
Qed.

(** X9: [subscribe] keeps one registry entry per id: under the id it
    returns (the caller's, or a minted one) the callback of this call is
    registered; an id that was registered already, whether the caller
    repeats it or a minted id meets one the caller once chose, has its
    callback replaced and the registry does not grow; every other entry is
    as before; the counter moves exactly when an id is minted. *)
Theorem subscribe_registers_one_entry (dst : string) (cb : option callback)
    (hdrs : option ref) (s : state) (d : headers_t) :
  contents hdrs s = Some d ->
  exists id h s',
    subscribe dst cb hdrs s = (Ret (id, h), s') /\
    id = subscription_id d s /\
    dict_get id (subscriptions s') = Some cb /\
    (forall k, k <> id ->
       dict_get k (subscriptions s') = dict_get k (subscriptions s)) /\
    length (subscriptions s')
      = (if dict_mem id (subscriptions s) then length (subscriptions s)
         else S (length (subscriptions s))) /\
    counter s' = (if dict_mem "id" d then counter s else S (counter s)).
Proof.
  intros Hd.
  destruct (subscribe_run dst cb hdrs s d Hd) as (s' & E & Hs & Hc & _).
  exists (subscription_id d s), (resolve hdrs s).1, s'.
  split; [exact E|]. split; [done|]. rewrite Hs. split_and!.
  - apply dict_get_set_eq.
  - intros k Hk. by apply dict_get_set_ne.
  - apply dict_length_set.
  - exact Hc.
Qed.

(** X10: what [subscribe] registers is what dispatch finds: after a
    [subscribe] with callback [c], a MESSAGE frame that names the returned
    id and carries a [message-id] is handed to [c], once, with ack and
    nack handles bound to that message id and that subscription, and
    dispatch returns what [c] returned. *)
Theorem subscribe_then_message (dst : string) (c : callback)
    (hdrs : option ref) (s : state) (d : headers_t) (message : string)
    (frame : Frame) (mid : string) :
  contents hdrs s = Some d ->
  message <> LF ->
  unmarshall_single message = inr frame ->
  command frame = "MESSAGE" ->
  dict_get "subscription" (headers frame) = Some (subscription_id d s) ->
  dict_get "message-id" (headers frame) = Some mid ->
  exists s1,
    subscribe dst (Some c) hdrs s
      = (Ret (subscription_id d s, (resolve hdrs s).1), s1) /\
    let arg := ArgFrame frame (Some (mid, subscription_id d s)) in
    _on_message message s1
      = (Ret (Some [VReturned c arg]),
         set_trace (trace s1 ++ [EvLog (LF +:+ "<<< " +:+ message);
                                 EvUnmarshal message; EvCall c arg]) s1).
Proof.
  intros Hd Hne Hu Hc Hsub Hmid.
  destruct (subscribe_run dst (Some c) hdrs s d Hd) as (s1 & E & Hs & _).
  exists s1. split; [exact E|]. cbv zeta.
  rewrite (on_message_MESSAGE _ _ _ Hne Hu Hc), Hsub, Hs, dict_get_set_eq, Hmid.
  unfold frame_received. f_equal. state_eq.
Qed.

(** X11: a headers mapping handed to two [subscribe] calls makes one
    subscription: the first call writes the minted id into the caller's
    mapping, the second finds it there and reuses it, so both return the
    same id, the registry holds one entry for it with the second callback,
    and the counter has moved once. *)
Theorem shared_mapping_shares_the_id (r : ref) (d : headers_t) (s : state)
    (dst1 dst2 : string) (cb1 cb2 : option callback) :
  heap s !! r = Some d ->
  dict_get "id" d = None ->
  exists id s1 s2,
    id = "sub-" +:+ str_nat (counter s) /\
    subscribe dst1 cb1 (Some r) s = (Ret (id, r), s1) /\
    subscribe dst2 cb2 (Some r) s1 = (Ret (id, r), s2) /\
    dict_get id (subscriptions s2) = Some cb2 /\
    length (subscriptions s2) = length (subscriptions s1) /\
    counter s2 = S (counter s).
Proof.
  intros Hd Hid.
  destruct (subscribe_run dst1 cb1 (Some r) s d Hd)
    as (s1 & E1 & Hs1 & Hc1 & Hh1 & _).
  cbn [resolve fst snd] in E1, Hh1.
  destruct (subscribe_run dst2 cb2 (Some r) s1 _ Hh1)
    as (s2 & E2 & Hs2 & Hc2 & _).
  cbn [resolve fst snd] in E2.
  assert (Hid0 : subscription_id d s = "sub-" +:+ str_nat (counter s))
    by (unfold subscription_id; by rewrite Hid).
  rewrite Hid0 in *.
  assert (Hid1 : dict_get "id"
                   (dict_set "destination" dst1
                      (dict_set "id" ("sub-" +:+ str_nat (counter s)) d))
                 = Some ("sub-" +:+ str_nat (counter s))).
  { rewrite dict_get_set_ne by done. apply dict_get_set_eq. }
  assert (Hid2 : subscription_id
                   (dict_set "destination" dst1
                      (dict_set "id" ("sub-" +:+ str_nat (counter s)) d)) s1
                 = "sub-" +:+ str_nat (counter s))
    by (unfold subscription_id; by rewrite Hid1).
  rewrite Hid2 in *.
  exists ("sub-" +:+ str_nat (counter s)), s1, s2.
  split; [done|]. split; [exact E1|]. split; [exact E2|].
  rewrite Hs2. split; [apply dict_get_set_eq|]. split.
  - rewrite dict_length_set, Hs1.
    by rewrite (dict_mem_Some _ _ _ (dict_get_set_eq _ cb1 _)).
  - rewrite Hc2, Hc1. unfold dict_mem. rewrite Hid1, Hid. reflexivity.
Qed.

(** X12: the closure that [subscribe] returns undoes the subscription:
    after a [subscribe] under an id that was not registered before, calling
    the closure sends the UNSUBSCRIBE frame for that id and leaves the
    registry exactly as it was before the [subscribe]; calling it a second
    time raises [KeyError] and changes nothing. *)
Theorem unsubscribe_closure_round_trip (dst : string) (cb : option callback)
    (hdrs : option ref) (s : state) (d : headers_t) :
  contents hdrs s = Some d ->
  dict_get (subscription_id d s) (subscriptions s) = None ->
  exists id h s1 s2,
    subscribe dst cb hdrs s = (Ret (id, h), s1) /\
    unsubscribe_closure h s1 = (Ret tt, s2) /\
    subscriptions s2 = subscriptions s /\
    sent (trace s2)
      = sent (trace s1) ++ [marshall "UNSUBSCRIBE" [("id", id)] None] /\
    unsubscribe_closure h s2 = (Raise (KeyError id), s2).
Proof.
  intros Hd Hnew.
  destruct (subscribe_run dst cb hdrs s d Hd)
    as (s1 & E & Hs & _ & Hh & _).
  set (id := subscription_id d s) in *. set (h := (resolve hdrs s).1) in *.
  assert (Hgid : dict_get "id" (dict_set "destination" dst (dict_set "id" id d))
                 = Some id).
  { rewrite dict_get_set_ne by done. apply dict_get_set_eq. }
  assert (Hin : dict_mem id (subscriptions s1) = true).
  { rewrite Hs. apply (dict_mem_Some _ _ cb), dict_get_set_eq. }
  exists id, h, s1. eexists. split; [exact E|]. split.
  { unfold unsubscribe_closure.
    rewrite (bind_Ret _ _ _ _ _ (getitem_run _ _ _ _ _ Hh Hgid)).
    by apply unsubscribe_present. }
  cbn [subscriptions trace heap set_trace set_heap set_subscriptions].
  rewrite Hs, dict_del_set_new by done. split; [done|].
  split; [by rewrite sent_app|].
  unfold unsubscribe_closure. erewrite bind_Ret; cycle 1.
  { eapply getitem_run; [|exact Hgid]. cbn. by apply lookup_app_l_Some. }
  apply unsubscribe_absent. cbn. by apply dict_mem_false.
Qed.

(** X13: [ack] and [nack] called without headers send one frame, ACK or
    NACK, whose headers are [message-id] and [subscription] in that order
    and nothing else.  Neither looks into the registry: the frame goes out
    for any subscription id, registered or not, and the registry and both
    flags are as before. *)
Theorem ack_nack_framing (mid sub : string) (s : state) :
  (exists s',
     ack mid sub None s = (Ret tt, s') /\
     sent (trace s')
       = sent (trace s)
           ++ [marshall "ACK" [("message-id", mid); ("subscription", sub)] None] /\
     subscriptions s' = subscriptions s /\
     opened s' = opened s /\ connected s' = connected s) /\
  (exists s',
     nack mid sub None s = (Ret tt, s') /\
     sent (trace s')
       = sent (trace s)
           ++ [marshall "NACK" [("message-id", mid); ("subscription", sub)] None] /\
     subscriptions s' = subscriptions s /\
     opened s' = opened s /\ connected s' = connected s).
Proof.
  assert (Hd : dict_set "subscription" sub (dict_set "message-id" mid [])
               = [("message-id", mid); ("subscription", sub)]) by reflexivity.
  split; eexists;
    [split; [exact (ack_run mid sub None s [] eq_refl)|]
    |split; [exact (nack_run mid sub None s [] eq_refl)|]];
    cbv zeta; rewrite Hd;
    cbn [subscriptions opened connected trace set_trace set_heap resolve
         fst snd];
    by rewrite sent_app.
Qed.

(** Dispatch of a frame that is neither CONNECTED nor MESSAGE. *)
Lemma on_message_other message frame s :
  message <> LF ->
  unmarshall_single message = inr frame ->
  command frame <> "CONNECTED" ->
  command frame <> "MESSAGE" ->
  let s1 := frame_received message s in
  _on_message message s =
    if decide (command frame = "RECEIPT") then (Ret (Some []), s1)
    else if decide (command frame = "ERROR") then
      match errorCallback s with
      | Some c =>
          (Ret (Some [VReturned c (ArgFrame frame None)]),
           set_trace (trace s1 ++ [EvCall c (ArgFrame frame None)]) s1)
      | None => (Ret (Some []), s1)
      end
    else
      let info := "Unhandled received MESSAGE: " +:+ command frame in
      (Ret (Some [VInfo info]), set_trace (trace s1 ++ [EvLog info]) s1).
Proof.
  intros Hne Hu Hc Hm s1. subst s1. unfold _on_message.
  rewrite decide_False by done.
  erewrite bind_Ret by reflexivity. erewrite bind_Ret by reflexivity.
  rewrite Hu. rewrite !(decide_False (P := command frame = "CONNECTED")) by done.
  rewrite !(decide_False (P := command frame = "MESSAGE")) by done.
  destruct (decide (command frame = "RECEIPT"));
    [unfold ret, frame_received; f_equal; state_eq|].
  destruct (decide (command frame = "ERROR")).
  - erewrite bind_Ret by reflexivity. cbn [errorCallback set_trace].
    destruct (errorCallback s) as [c|];
      cbv [bind call ret emit modify frame_received]; cbn; f_equal; state_eq.
  - cbv [bind ret logger_debug emit modify frame_received]; cbn; f_equal;
      state_eq.
Qed.

(** X14: frames other than CONNECTED and MESSAGE never raise and never
    touch the state beyond the trace.  A RECEIPT is dropped; an ERROR frame
    goes to the error callback when [connect] was given one and is dropped
    otherwise, and in neither case is [connected] reset; a frame with any
    other command is reported by a diagnostic naming the command. *)
Theorem other_frames_are_harmless (message : string) (frame : Frame)
    (s : state) :
  message <> LF ->
  unmarshall_single message = inr frame ->
  command frame <> "CONNECTED" ->
  command frame <> "MESSAGE" ->
  exists results t,
    _on_message message s = (Ret (Some results), set_trace (trace s ++ t) s) /\
    sent t = [] /\
    (command frame = "RECEIPT" -> results = [] /\ calls t = []) /\
    (command frame = "ERROR" ->
       forall c, errorCallback s = Some c ->
         results = [VReturned c (ArgFrame frame None)] /\
         calls t = [(c, ArgFrame frame None)]) /\
    (command frame = "ERROR" -> errorCallback s = None ->
       results = [] /\ calls t = []) /\
    (command frame <> "RECEIPT" -> command frame <> "ERROR" ->
       results = [VInfo ("Unhandled received MESSAGE: " +:+ command frame)] /\
       calls t = []).
Proof.
  intros Hne Hu Hc Hm.
  rewrite (on_message_other message frame s Hne Hu Hc Hm). cbv zeta.
  unfold frame_received.
  destruct (decide (command frame = "RECEIPT")) as [Hr|Hr].
  - eexists [], _. split; [reflexivity|]. split; [done|].
    split_and!; try done; intros He; rewrite Hr in He; discriminate.
  - destruct (decide (command frame = "ERROR")) as [He|He].
    + destruct (errorCallback s) as [c|] eqn:Hcb.
      * eexists _, _. split; [f_equal; state_eq|]. split; [done|].
        split_and!; try done. intros _ c' [= <-]. done.
      * eexists [], _. split; [reflexivity|]. split; [done|].
        split_and!; done.
    + eexists _, _. split; [f_equal; state_eq|]. split; [done|].
      split_and!; done.
Qed.

(** X15: the ways the dispatch of a MESSAGE frame raises.  A frame without
    a [subscription] header raises [KeyError]; a frame for a registered id
    without a [message-id] raises [KeyError] although the callback needs no
    handle to be called; a frame for an id registered without a callback
    ([subscribe] has [callback=None] as its default) raises [TypeError].
    In each case no callback has run and only the trace has changed. *)
Theorem message_dispatch_failures (message : string) (frame : Frame)
    (s : state) :
  message <> LF ->
  unmarshall_single message = inr frame ->
  command frame = "MESSAGE" ->
  (dict_get "subscription" (headers frame) = None ->
     _on_message message s
       = (Raise (KeyError "subscription"), frame_received message s)) /\
  (forall sub onreceive,
     dict_get "subscription" (headers frame) = Some sub ->
     dict_get sub (subscriptions s) = Some onreceive ->
     dict_get "message-id" (headers frame) = None ->
     _on_message message s
       = (Raise (KeyError "message-id"), frame_received message s)) /\
  (forall sub mid,
     dict_get "subscription" (headers frame) = Some sub ->
     dict_get sub (subscriptions s) = Some None ->
     dict_get "message-id" (headers frame) = Some mid ->
     _on_message message s
       = (Raise none_not_callable, frame_received message s)) /\
  calls (trace (frame_received message s)) = calls (trace s).
Proof.
  intros Hne Hu Hc.
  rewrite (on_message_MESSAGE _ _ _ Hne Hu Hc). cbv zeta. split_and!.
  - by intros ->.
  - intros sub onreceive -> -> ->. done.
  - intros sub mid -> -> ->. done.
  - unfold frame_received. cbn [trace set_trace]. rewrite calls_app. cbn.
    by rewrite app_nil_r.
Qed.

(** X16: [connect] replaces all three stored callbacks by its arguments,
    dropping those of an earlier [connect] also where the new argument is
    absent; a CONNECTED frame that arrives afterwards sets [connected] and
    goes to the connect callback of that last [connect], if it gave one. *)
Theorem connect_then_connected fuel env login passcode host hdrs ccb ecb pcb
    tmo pint ptmo vssl (s s1 : state) (d : headers_t) (message : string)
    (frame : Frame) :
  contents hdrs s = Some d ->
  connect fuel env login passcode host hdrs ccb ecb pcb tmo pint ptmo vssl s
    = (Ret tt, s1) ->
  message <> LF ->
  unmarshall_single message = inr frame ->
  command frame = "CONNECTED" ->
  _connectCallback s1 = ccb /\ errorCallback s1 = ecb /\
  pingCallback s1 = Some pcb /\
  exists r s2 t,
    _on_message message s1 = (Ret r, s2) /\
    connected s2 = true /\
    trace s2 = trace s1 ++ t /\
    calls t = connect_calls ccb frame.
Proof.
  intros Hd E Hne Hu Hc.
  destruct (connect_returned _ _ _ _ _ _ _ _ _ _ _ _ _ _ _ _ Hd E)
    as (s0 & t0 & _ & _ & _ & Hs1). cbv zeta in Hs1.
  assert (Hcb : _connectCallback s1 = ccb) by (by rewrite Hs1).
  split; [exact Hcb|]. split; [by rewrite Hs1|]. split; [by rewrite Hs1|].
  rewrite (on_message_CONNECTED _ _ _ Hne Hu Hc). cbv zeta. rewrite Hcb.
  unfold frame_received.
  destruct ccb as [c|]; eexists _, _, _; (split; [reflexivity|]);
    (split; [reflexivity|]); cbn [trace set_trace set_connected];
    rewrite <- ?app_assoc; (split; [reflexivity|]); reflexivity.
Qed.

(** X17: after [disconnect] nothing is registered any more: [unsubscribe]
    raises [KeyError] for every id and changes nothing, and every MESSAGE
    frame that names a subscription is answered by the unhandled-message
    diagnostic without any callback being called. *)
Theorem nothing_registered_after_disconnect (cb : option callback)
    (hdrs : option ref) (s s1 : state) (d : headers_t) :
  contents hdrs s = Some d ->
  disconnect cb hdrs s = (Ret tt, s1) ->
  (forall id, unsubscribe id s1 = (Raise (KeyError id), s1)) /\
  (forall message frame sub,
     message <> LF ->
     unmarshall_single message = inr frame ->
     command frame = "MESSAGE" ->
     dict_get "subscription" (headers frame) = Some sub ->
     exists t,
       _on_message message s1
         = (Ret (Some [VInfo ("Unhandled received MESSAGE: "
                              +:+ frame_str frame)]),
            set_trace (trace s1 ++ t) s1) /\
       calls t = []).
Proof.
  intros Hd E. rewrite (disconnect_run cb hdrs s d Hd) in E.
  assert (Hs : subscriptions s1 = []) by (by injection E as <-).
  clear E. split.
  - intros id. apply unsubscribe_absent. by rewrite Hs.
  - intros message frame sub Hne Hu Hc Hsub.
    rewrite (on_message_MESSAGE _ _ _ Hne Hu Hc), Hsub, Hs. cbn [dict_get].
    eexists. split; [unfold frame_received; f_equal; state_eq|]. done.
Qed.

(** X18: what [send] hands to the transport is one SEND frame.  Its
    headers are the caller's with [destination] set to the argument, so a
    [destination] header of the caller's is overwritten and every other
    header goes out as the caller gave it; its body is the empty string when
    no body is given.  The registry and the counter are not touched. *)
Theorem send_frame_contents (dst : string) (hdrs : option ref)
    (bdy : option string) (s : state) (d : headers_t) :
  contents hdrs s = Some d ->
  let d' := dict_set "destination" dst d in
  exists s',
    send dst hdrs bdy s = (Ret tt, s') /\
    sent (trace s')
      = sent (trace s)
          ++ [marshall "SEND" d'
                (Some (match bdy with Some b => b | None => "" end))] /\
    dict_get "destination" d' = Some dst /\
    (forall k, k <> "destination" -> dict_get k d' = dict_get k d) /\
    subscriptions s' = subscriptions s /\ counter s' = counter s.
Proof.
  intros Hd d'. eexists. split; [exact (send_run dst hdrs bdy s d Hd)|].
  cbn [subscriptions counter trace set_trace set_heap].
  rewrite sent_app. split; [done|]. split; [apply dict_get_set_eq|].
  split; [intros k Hk; by apply dict_get_set_ne|].
  by destruct hdrs.
Qed.

End Facts.

(** * Concrete runs over the codec of the specification *)

#[local] Existing Instance spec_codec.
Import Run.

(** C3: a heartbeat, the message that is exactly one newline, is handed to
    the heartbeat callback when [connect] was given one.  When [connect] ran
    with its default [pingCallback=None], the call [self.pingCallback(message)]
    is made all the same and raises [TypeError]; on a client on which
    [connect] never ran the attribute does not exist and the dispatch raises
    [AttributeError].  The heartbeat is not dropped quietly, although the
    CONNECTED and ERROR branches do guard their callbacks with
    [is not None]. *)
Theorem heartbeat_without_callback_raises :
  pingCallback connected_by_default = Some None /\
  _on_message LF connected_by_default =
    (Raise (TypeError "'NoneType' object is not callable"),
     set_trace (trace connected_by_default ++ [EvLog "<<< PONG"])
       connected_by_default) /\
  _on_message LF fresh =
    (Raise (AttributeError "pingCallback"),
     set_trace (trace fresh ++ [EvLog "<<< PONG"]) fresh) /\
  (forall (s : state) (c : callback),
     pingCallback s = Some (Some c) ->
     _on_message LF s =
       (Ret None,
        set_trace (trace s ++ [EvLog "<<< PONG"; EvCall c (ArgMessage LF)]) s)).
Proof.
  split; [reflexivity|]. split; [reflexivity|]. split; [reflexivity|].
  intros s c Hc. by apply heartbeat_dispatch.
Qed.

(** C6: a MESSAGE frame for an id without a registered callback is a
    diagnostic only when the id is not a key of the registry.  [subscribe]
    with its default [callback=None] registers the id with [None]; the test
    [subscription in self.subscriptions] then holds, and [onreceive(frame)]
    is called unguarded and raises [TypeError]: no diagnostic is logged or
    returned.  On the same client a frame for an id that is not a key gets
    the diagnostic, and the CONNECTED and ERROR branches guard their
    callbacks with [is not None]. *)
Theorem message_without_callback_raises :
  subscriptions subscribed_without_callback = [("sub-0", None)] /\
  unmarshall_single (message_for "sub-0") = inr (frame_for "sub-0") /\
  _on_message (message_for "sub-0") subscribed_without_callback =
    (Raise (TypeError "'NoneType' object is not callable"),
     set_trace
       (trace subscribed_without_callback
          ++ [EvLog (LF +:+ "<<< " +:+ message_for "sub-0");
              EvUnmarshal (message_for "sub-0")])
       subscribed_without_callback) /\
  _on_message (message_for "sub-7") subscribed_without_callback =
    (Ret (Some [VInfo ("Unhandled received MESSAGE: "
                         +:+ frame_str (frame_for "sub-7"))]),
     set_trace
       (trace subscribed_without_callback
          ++ [EvLog (LF +:+ "<<< " +:+ message_for "sub-7");
              EvUnmarshal (message_for "sub-7");
              EvLog ("Unhandled received MESSAGE: "
                       +:+ frame_str (frame_for "sub-7"))])
       subscribed_without_callback) /\
  (forall (message : string) (frame : Frame) (sub mid : string) (s : state),
     message <> LF ->
     unmarshall_single message = inr frame ->
     command frame = "MESSAGE" ->
     dict_get "subscription" (headers frame) = Some sub ->
     dict_get "message-id" (headers frame) = Some mid ->
     dict_get sub (subscriptions s) = Some None ->
     _on_message message s =
       (Raise (TypeError "'NoneType' object is not callable"),
        set_trace
          (trace s ++ [EvLog (LF +:+ "<<< " +:+ message); EvUnmarshal message])
          s)).
Proof.
  split; [reflexivity|]. split; [vm_compute; reflexivity|].
  split; [vm_compute; reflexivity|]. split; [vm_compute; reflexivity|].
  intros message frame sub mid s Hne Hu Hc Hsub Hmid Hreg.
  rewrite (on_message_MESSAGE _ _ _ Hne Hu Hc), Hsub, Hreg, Hmid.
  reflexivity.
Qed.

(** A new client, a silent transport, [connect_timeout=500]: three polls. *)
Lemma connect_timeout_spec_witness :
  opened fresh = false /\
  exists polls : nat,
    500 < 250 * Z.of_nat polls <= 500 + 250 /\
    forall fuel, (polls <= fuel)%nat ->
      connect fuel silent None None None None None None None 500 0 None true
        fresh =
        (Raise (timed_out fresh),
         set_trace
           (trace fresh ++ [EvLog "Opening web socket...";
                            EvRunForever 0 None true]
                        ++ replicate polls EvSleep) fresh).
Proof.
  split; [reflexivity|].
  apply (connect_timeout_spec fresh None None None None None None None 0 None
           true eq_refl);
    [lia | intros k; reflexivity].
Defined.

(** [disconnect] with a callback, in a session with three subscriptions:
    the callback is called last and finds the client disconnected. *)
Lemma disconnect_spec_witness :
  contents None in_session = Some [] /\
  length (subscriptions in_session) = 3%nat /\
  connected in_session = true /\
  exists s' t,
    disconnect (Some 9%nat) None in_session = (Ret tt, s') /\
    trace s' =
      t ++ [EvCall 9%nat
              (ArgClient {| seen_opened := true; seen_connected := false;
                            seen_subscriptions := []; seen_on_close := false |})] /\
    sent t =
      sent (trace in_session)
        ++ [marshall "UNSUBSCRIBE" [("id", "sub-0")] None;
            marshall "UNSUBSCRIBE" [("id", "sub-1")] None;
            marshall "UNSUBSCRIBE" [("id", "sub-2")] None;
            marshall "DISCONNECT" [] None] /\
    subscriptions s' = [] /\ connected s' = false.
Proof.
  split; [reflexivity|]. split; [reflexivity|]. split; [reflexivity|].
  destruct (disconnect_spec (Some 9%nat) None in_session [] 3
              eq_refl eq_refl) as (s' & E & _ & _ & Ht & Hsub & Hc & _).
  exists s'.
  exists (trace in_session
            ++ unsubscribe_events (dict_keys (subscriptions in_session))
            ++ transmitted "DISCONNECT" [] None ++ [EvWsClose]).
  split; [exact E|]. split; [|split; [|split; [exact Hsub | exact Hc]]].
  - rewrite Ht. rewrite <- !app_assoc. reflexivity.
  - vm_compute. reflexivity.
Defined.

(** A MESSAGE for [sub-7] when only [sub-0] and [sub-1] are registered. *)
Lemma unknown_subscription_is_diagnostic_witness :
  message_for "sub-7" <> LF /\
  unmarshall_single (message_for "sub-7") = inr (frame_for "sub-7") /\
  dict_get "sub-7" (subscriptions two_subscriptions) = None /\
  exists info,
    _on_message (message_for "sub-7") two_subscriptions =
      (Ret (Some [VInfo info]),
       set_trace
         (trace two_subscriptions
            ++ [EvLog (LF +:+ "<<< " +:+ message_for "sub-7");
                EvUnmarshal (message_for "sub-7"); EvLog info])
         two_subscriptions).
Proof.
  split; [discriminate|]. split; [reflexivity|]. split; [reflexivity|].
  eexists.
  apply (unknown_subscription_is_diagnostic (message_for "sub-7")
           (frame_for "sub-7") "sub-7" two_subscriptions);
    [discriminate | reflexivity | reflexivity | reflexivity | reflexivity].
Defined.

(** [unsubscribe] of an unknown and of a known id. *)
Lemma unsubscribe_spec_witness :
  dict_wf (subscriptions two_subscriptions) /\
  unsubscribe "sub-7" two_subscriptions =
    (Raise (KeyError "sub-7"), two_subscriptions) /\
  exists s',
    unsubscribe "sub-0" two_subscriptions = (Ret tt, s') /\
    dict_get "sub-0" (subscriptions s') = None /\
    sent (trace s') =
      sent (trace two_subscriptions)
        ++ [marshall "UNSUBSCRIBE" [("id", "sub-0")] None].
Proof.
  assert (Hwf : dict_wf (subscriptions two_subscriptions)).
  { apply (bool_decide_unpack _). vm_compute. exact I. }
  split; [exact Hwf|]. split.
  - apply (unsubscribe_spec "sub-7" two_subscriptions Hwf). reflexivity.
  - destruct (unsubscribe_spec "sub-0" two_subscriptions Hwf) as [_ Hp].
    destruct (Hp eq_refl) as (s' & E & Hg & _ & _ & Hs).
    exists s'. split; [exact E|]. split; [exact Hg | exact Hs].
Defined.

(** Two subscriptions on a new client, and a MESSAGE for the first. *)
Lemma subscription_ids_and_routing_witness :
  (exists s',
     subscribe_each [("/queue/a", Some 1%nat, None); ("/queue/b", Some 2%nat, None)]
       fresh = (Ret ["sub-0"; "sub-1"], s')) /\
  (exists t,
     trace (_on_message (message_for "sub-0") two_subscriptions).2
       = trace two_subscriptions ++ t /\
     calls t = [(1%nat, ArgFrame (frame_for "sub-0") (Some ("42", "sub-0")))]).
Proof.
  destruct subscription_ids_and_routing as [Hids Hroute]. split.
  - destruct (Hids [("/queue/a", Some 1%nat, None); ("/queue/b", Some 2%nat, None)]
                fresh) as (s' & E & _).
    + cbn [no_id_supplied]. split; [exists []; split; reflexivity|].
      split; [exists []; split; reflexivity | exact I].
    + exists s'. exact E.
  - destruct (Hroute (message_for "sub-0") (frame_for "sub-0") "sub-0"
                (Some 1%nat) two_subscriptions)
      as (t & Ht & _ & Hcall);
      [discriminate | reflexivity | reflexivity | reflexivity | reflexivity |].
    exists t. split; [exact Ht|].
    destruct (Hcall 1%nat "42" eq_refl eq_refl) as [Hc _]. exact Hc.
Defined.

(** C8 as stated fails where it says that [login] is in the frame exactly
    when the [login] argument is supplied: a caller whose own mapping carries
    [login] and who passes no [login] argument gets a CONNECT frame that
    carries it. *)
Lemma connect_login_counterexample :
  exists s' d',
    connect 1 opens_at_once None None None (Some 0%nat) None None None 0 0 None
      true with_login_header = (Ret tt, s') /\
    sent (trace s') = [marshall "CONNECT" d' None] /\
    dict_get "login" d' = Some "bob" /\
    ~ header_iff_supplied "login" None d'.
Proof.
  exists (connect 1 opens_at_once None None None (Some 0%nat) None None None
            0 0 None true with_login_header).2,
    [("login", "bob"); ("host", "ws://broker/stomp");
     ("accept-version", "1.0,1.1,1.2"); ("heart-beat", "0,0")].
  split; [vm_compute; reflexivity|]. split; [vm_compute; reflexivity|].
  split; [vm_compute; reflexivity|].
  unfold header_iff_supplied. intros [Hl _].
  destruct Hl as [x Hx]; [by exists "bob" | discriminate].
Qed.

(** [connect] with credentials and a caller's mapping holding [receipt]. *)
Lemma connect_frame_headers_witness :
  contents (Some 0%nat) with_caller_mapping = Some [("receipt", "r-1")] /\
  exists s' d',
    connect 1 opens_at_once (Some "alice") (Some "secret") None (Some 0%nat)
      None None None 0 5 None true with_caller_mapping = (Ret tt, s') /\
    sent (trace s') =
      sent (trace with_caller_mapping) ++ [marshall "CONNECT" d' None] /\
    dict_get "host" d' = Some "ws://broker/stomp" /\
    dict_get "heart-beat" d' = Some "5000,5000" /\
    dict_get "login" d' = Some "alice" /\
    dict_get "receipt" d' = Some "r-1".
Proof.
  split; [reflexivity|].
  set (s' := (connect 1 opens_at_once (Some "alice") (Some "secret") None
                (Some 0%nat) None None None 0 5 None true
                with_caller_mapping).2).
  assert (E : connect 1 opens_at_once (Some "alice") (Some "secret") None
                (Some 0%nat) None None None 0 5 None true with_caller_mapping
              = (Ret tt, s')) by (vm_compute; reflexivity).
  destruct (connect_frame_headers 1 opens_at_once (Some "alice") (Some "secret")
              None (Some 0%nat) None None None 0 5 None true
              with_caller_mapping s' [("receipt", "r-1")] eq_refl E)
    as (d' & Hs & Hh & _ & Hb & Hl & _ & Hk).
  exists s', d'. split; [exact E|]. split; [exact Hs|].
  split; [exact Hh|]. split; [exact Hb|]. split; [exact Hl|].
  rewrite Hk; [reflexivity | | discriminate | discriminate].
  unfold mandated_keys. rewrite !not_elem_of_cons.
  split_and!; [discriminate | discriminate | discriminate | apply not_elem_of_nil].
Defined.

(** A new client receives a CONNECTED frame. *)
Lemma connected_flag_transitions_witness :
  reachable "ws://broker/stomp" fresh /\
  step fresh (OnMessage connected_message) after_connected /\
  exists message,
    OnMessage connected_message = OnMessage message /\
    is_connected_frame message.
Proof.
  assert (Hr : reachable "ws://broker/stomp" fresh) by apply reachable_init.
  assert (Hs : step fresh (OnMessage connected_message) after_connected).
  { split; [exact I|]. exists (Ret tt). split; [reflexivity | discriminate]. }
  split; [exact Hr|]. split; [exact Hs|].
  apply (connected_flag_transitions _ _ _ _ Hr Hs); reflexivity.
Defined.

(** [disconnect] given the caller's mapping [{receipt: r-1}]: it returns,
    and the mapping, like every object of the heap, is as it was. *)
Lemma disconnect_leaves_headers_counterexample :
  heap with_caller_mapping !! 0%nat = Some [("receipt", "r-1")] /\
  (disconnect None (Some 0%nat) with_caller_mapping).1 = Ret tt /\
  heap (disconnect None (Some 0%nat) with_caller_mapping).2
    = heap with_caller_mapping /\
  heap (disconnect None (Some 0%nat) with_caller_mapping).2 !! 0%nat
    = Some [("receipt", "r-1")].
Proof. vm_compute. repeat split. Qed.

(** A caller's mapping holding [receipt], handed to each operation on a new
    client: [connect] with a transport that opens during the first sleep,
    [subscribe], [send], [ack], [nack] and [disconnect]. *)
Lemma headers_mutated_in_place_witness :
  heap with_caller_mapping !! 0%nat = Some [("receipt", "r-1")] /\
  opened with_caller_mapping = false /\
  (exists s' d',
     connect 1 opens_at_once None None None (Some 0%nat) None None None 0 0
       None true with_caller_mapping = (Ret tt, s') /\
     heap s' !! 0%nat = Some d' /\
     dict_get "host" d' = Some "ws://broker/stomp" /\
     dict_get "accept-version" d' = Some "1.0,1.1,1.2" /\
     dict_get "heart-beat" d' = Some "0,0" /\
     dict_get "receipt" d' = Some "r-1") /\
  (exists s' d',
     subscribe "/queue/a" None (Some 0%nat) with_caller_mapping
       = (Ret ("sub-0", 0%nat), s') /\
     heap s' !! 0%nat = Some d' /\
     dict_get "id" d' = Some "sub-0" /\
     dict_get "destination" d' = Some "/queue/a") /\
  (exists s' d',
     send "/queue/a" (Some 0%nat) None with_caller_mapping = (Ret tt, s') /\
     heap s' !! 0%nat = Some d' /\
     dict_get "destination" d' = Some "/queue/a" /\
     dict_get "receipt" d' = Some "r-1") /\
  (exists s' d',
     ack "42" "sub-0" (Some 0%nat) with_caller_mapping = (Ret tt, s') /\
     heap s' !! 0%nat = Some d' /\
     dict_get "message-id" d' = Some "42" /\
     dict_get "subscription" d' = Some "sub-0") /\
  (exists s' d',
     nack "42" "sub-0" (Some 0%nat) with_caller_mapping = (Ret tt, s') /\
     heap s' !! 0%nat = Some d' /\
     dict_get "message-id" d' = Some "42" /\
     dict_get "subscription" d' = Some "sub-0") /\
  (exists s',
     disconnect None (Some 0%nat) with_caller_mapping = (Ret tt, s') /\
     heap s' !! 0%nat = Some [("receipt", "r-1")]).
Proof.
  split; [reflexivity|]. split; [reflexivity|].
  destruct (headers_mutated_in_place 0%nat [("receipt", "r-1")]
              with_caller_mapping eq_refl)
    as (Hsub & Hsend & Hack & Hnack & Hconn & _ & Hdisc).
  split_and!.
  - destruct (Hconn 1%nat opens_at_once 0%nat None None None None None None
                0 0 None true eq_refl)
      as (s' & d' & E & Hh & _ & Hhost & Hav & Hhb & Hk);
      [intros j Hj; lia | apply list_elem_of_singleton; reflexivity
      | left; lia | lia |].
    exists s', d'. split; [exact E|]. split; [exact Hh|].
    split; [exact Hhost|]. split; [exact Hav|]. split; [exact Hhb|].
    rewrite Hk; [reflexivity | | discriminate | discriminate].
    unfold mandated_keys. rewrite !not_elem_of_cons.
    repeat split; [discriminate .. | apply not_elem_of_nil].
  - destruct (Hsub "/queue/a" None) as (id & s' & d' & E & Hh & _ & Hid & Hd & _).
    pose proof (f_equal fst E) as F. vm_compute in F. injection F as <-.
    exists s', d'. by repeat split.
  - destruct (Hsend "/queue/a" None) as (s' & d' & E & Hh & _ & Hd & Hk).
    exists s', d'. split; [exact E|]. split; [exact Hh|]. split; [exact Hd|].
    rewrite Hk; [reflexivity | discriminate].
  - destruct (Hack "42" "sub-0") as (s' & d' & E & Hh & _ & Hm & Hs & _).
    exists s', d'. by repeat split.
  - destruct (Hnack "42" "sub-0") as (s' & d' & E & Hh & _ & Hm & Hs & _).
    exists s', d'. by repeat split.
  - destruct (Hdisc None) as (s' & E & Hh & _).
    exists s'. by split.
Defined.

(** * The further properties at concrete inputs *)

(** A [disconnect] on a client whose transport has reported an error. *)
Lemma opened_is_never_reset_witness :
  step after_error (Disconnect None None)
    (exec (Disconnect None None) after_error).2 /\
  opened after_error = true /\
  opened (exec (Disconnect None None) after_error).2 = true.
Proof.
  assert (Hs : step after_error (Disconnect None None)
                 (exec (Disconnect None None) after_error).2).
  { split; [exact I|]. exists (Ret tt).
    split; [vm_compute; reflexivity | discriminate]. }
  split; [exact Hs|]. split; [reflexivity|].
  exact (opened_is_never_reset _ _ _ Hs eq_refl).
Defined.

(** An [unsubscribe] after two subscriptions. *)
Lemma counter_never_decreases_witness :
  step two_subscriptions (Unsubscribe "sub-0")
    (exec (Unsubscribe "sub-0") two_subscriptions).2 /\
  counter (exec (Unsubscribe "sub-0") two_subscriptions).2 = 2%nat.
Proof.
  assert (Hs : step two_subscriptions (Unsubscribe "sub-0")
                 (exec (Unsubscribe "sub-0") two_subscriptions).2).
  { split; [exact I|]. exists (Ret tt).
    split; [vm_compute; reflexivity | discriminate]. }
  split; [exact Hs|].
  destruct (counter_never_decreases _ _ _ Hs) as [_ Hk].
  rewrite Hk; [reflexivity | discriminate].
Defined.

(** The transport opens again after a [disconnect]. *)
Lemma close_handler_stays_unbound_witness :
  contents None two_subscriptions = Some [] /\
  disconnect None None two_subscriptions = (Ret tt, after_disconnect) /\
  steps after_disconnect [OnOpen] (exec OnOpen after_disconnect).2 /\
  ws_on_close (exec OnOpen after_disconnect).2 = false.
Proof.
  assert (Hd : disconnect None None two_subscriptions
               = (Ret tt, after_disconnect)) by (vm_compute; reflexivity).
  assert (Hr : steps after_disconnect [OnOpen] (exec OnOpen after_disconnect).2).
  { eapply steps_cons; [|apply steps_nil].
    split; [exact I|]. exists (Ret tt). split; [reflexivity | discriminate]. }
  split; [reflexivity|]. split; [exact Hd|]. split; [exact Hr|].
  exact (proj2 (close_handler_stays_unbound None None [] two_subscriptions
                  after_disconnect [OnOpen] _ eq_refl Hd Hr)).
Defined.

(** The transport closes while two subscriptions are registered. *)
Lemma transport_callbacks_keep_engine_data_witness :
  is_transport_callback OnClose = true /\
  subscriptions (exec OnClose two_subscriptions).2
    = subscriptions two_subscriptions.
Proof.
  split; [reflexivity|].
  destruct (transport_callbacks_keep_engine_data OnClose two_subscriptions
              (Ret tt) (exec OnClose two_subscriptions).2 eq_refl eq_refl)
    as (_ & _ & _ & Hs & _).
  exact Hs.
Defined.

(** [connect_timeout=-5] and a silent transport, three polls. *)
Lemma negative_timeout_is_no_timeout_witness :
  -5 < 0 /\
  _connect 3 silent (-5) 0 None true fresh = _connect 3 silent 0 0 None true fresh.
Proof.
  split; [lia|]. apply negative_timeout_is_no_timeout. lia.
Defined.

(** The wait of a [connect] after the transport has reported an error,
    with a timeout of 500 and not a single poll allowed. *)
Lemma wait_is_skipped_once_opened_witness :
  opened after_error = true /\
  _connect 0 silent 500 0 None true after_error
    = (Ret tt,
       set_trace (trace after_error ++ [EvRunForever 0 None true]) after_error).
Proof.
  split; [reflexivity|].
  apply (wait_is_skipped_once_opened after_error 0 silent 500 0 None true).
  reflexivity.
Defined.

(** The transport reports an error during the first sleep, timeout 1000. *)
Lemma wait_ends_on_any_signal_witness :
  opened fresh = false /\
  exists s',
    _connect 1 fails_at_once 1000 0 None true fresh = (Ret tt, s') /\
    opened s' = true /\
    sleeps (trace s') = 1%nat /\
    sent (trace s') = [].
Proof.
  split; [reflexivity|].
  destruct (wait_ends_on_any_signal fresh fails_at_once 1000 0 1 0 None true
              eq_refl)
    as (s' & E & Ho & Hs & Hsent & _); [intros j Hj; lia | | right; lia | lia |].
  { exists (SigError "refused").
    split; [apply list_elem_of_singleton; reflexivity | reflexivity]. }
  exists s'. split; [exact E|]. split; [exact Ho|]. split; [exact Hs|].
  exact Hsent.
Defined.

(** A third subscription without headers. *)
Lemma subscribe_registers_one_entry_witness :
  contents None two_subscriptions = Some [] /\
  exists h s',
    subscribe "/queue/c" (Some 3%nat) None two_subscriptions
      = (Ret ("sub-2", h), s') /\
    dict_get "sub-2" (subscriptions s') = Some (Some 3%nat).
Proof.
  split; [reflexivity|].
  destruct (subscribe_registers_one_entry "/queue/c" (Some 3%nat) None
              two_subscriptions [] eq_refl)
    as (id & h & s' & E & -> & Hg & _).
  exists h, s'. split; [exact E | exact Hg].
Defined.

(** A first subscription, then a MESSAGE for [sub-0]. *)
Lemma subscribe_then_message_witness :
  contents None fresh = Some [] /\
  unmarshall_single (message_for "sub-0") = inr (frame_for "sub-0") /\
  exists s1,
    subscribe "/queue/a" (Some 1%nat) None fresh = (Ret ("sub-0", 0%nat), s1) /\
    (_on_message (message_for "sub-0") s1).1
      = Ret (Some [VReturned 1%nat
                     (ArgFrame (frame_for "sub-0") (Some ("42", "sub-0")))]).
Proof.
  split; [reflexivity|]. split; [reflexivity|].
  destruct (subscribe_then_message "/queue/a" 1%nat None fresh []
              (message_for "sub-0") (frame_for "sub-0") "42" eq_refl)
    as (s1 & E & Hm);
    [discriminate | reflexivity | reflexivity | reflexivity | reflexivity |].
  exists s1. split; [exact E|]. cbv zeta in Hm. by rewrite Hm.
Defined.

(** Two subscriptions with the same, at first empty, mapping. *)
Lemma shared_mapping_shares_the_id_witness :
  heap with_empty_mapping !! 0%nat = Some [] /\
  exists s1 s2,
    subscribe "/queue/a" (Some 1%nat) (Some 0%nat) with_empty_mapping
      = (Ret ("sub-0", 0%nat), s1) /\
    subscribe "/queue/b" (Some 2%nat) (Some 0%nat) s1
      = (Ret ("sub-0", 0%nat), s2) /\
    dict_get "sub-0" (subscriptions s2) = Some (Some 2%nat).
Proof.
  split; [reflexivity|].
  destruct (shared_mapping_shares_the_id 0%nat [] with_empty_mapping
              "/queue/a" "/queue/b" (Some 1%nat) (Some 2%nat) eq_refl eq_refl)
    as (id & s1 & s2 & -> & E1 & E2 & Hg & _).
  exists s1, s2. split; [exact E1|]. split; [exact E2 | exact Hg].
Defined.

(** A subscription on a new client and its closure, called twice. *)
Lemma unsubscribe_closure_round_trip_witness :
  contents None fresh = Some [] /\
  dict_get (subscription_id [] fresh) (subscriptions fresh) = None /\
  exists h s1 s2,
    subscribe "/queue/a" (Some 1%nat) None fresh = (Ret ("sub-0", h), s1) /\
    unsubscribe_closure h s1 = (Ret tt, s2) /\
    subscriptions s2 = [] /\
    unsubscribe_closure h s2 = (Raise (KeyError "sub-0"), s2).
Proof.
  split; [reflexivity|]. split; [reflexivity|].
  destruct (unsubscribe_closure_round_trip "/queue/a" (Some 1%nat) None fresh []
              eq_refl eq_refl)
    as (id & h & s1 & s2 & E & Ec & Hs & _ & Er).
  assert (Hid : id = "sub-0").
  { pose proof (subscribe_run_minted "/queue/a" (Some 1%nat) None fresh []
                  eq_refl eq_refl) as E0.
    cbv zeta in E0. rewrite E0 in E. by injection E as <- _. }
  subst id. exists h, s1, s2.
  split; [exact E|]. split; [exact Ec|]. split; [exact Hs | exact Er].
Defined.

(** An ERROR frame for a client that gave no error callback. *)
Lemma other_frames_are_harmless_witness :
  unmarshall_single error_message = inr error_frame /\
  exists t,
    _on_message error_message connected_by_default
      = (Ret (Some []),
         set_trace (trace connected_by_default ++ t) connected_by_default) /\
    calls t = [].
Proof.
  split; [reflexivity|].
  destruct (other_frames_are_harmless error_message error_frame
              connected_by_default)
    as (results & t & E & _ & _ & _ & Hnone & _);
    [discriminate | reflexivity | discriminate | discriminate |].
  destruct (Hnone eq_refl eq_refl) as [-> Hc].
  exists t. split; [exact E | exact Hc].
Defined.

(** A MESSAGE frame without a [subscription] header. *)
Lemma message_dispatch_failures_witness :
  unmarshall_single anonymous_message = inr anonymous_frame /\
  _on_message anonymous_message two_subscriptions
    = (Raise (KeyError "subscription"),
       frame_received anonymous_message two_subscriptions).
Proof.
  split; [reflexivity|].
  apply (message_dispatch_failures anonymous_message anonymous_frame
           two_subscriptions);
    [discriminate | reflexivity | reflexivity | reflexivity].
Defined.

(** [connect] with a connect callback, then the CONNECTED frame. *)
Lemma connect_then_connected_witness :
  exists s1 s2,
    connect 1 opens_at_once None None None None (Some 5%nat) None None 0 0 None
      true fresh = (Ret tt, s1) /\
    (_on_message connected_message s1).2 = s2 /\
    connected s2 = true /\ _connectCallback s1 = Some 5%nat.
Proof.
  set (s1 := (connect 1 opens_at_once None None None None (Some 5%nat) None None
                0 0 None true fresh).2).
  assert (E : connect 1 opens_at_once None None None None (Some 5%nat) None None
                0 0 None true fresh = (Ret tt, s1))
    by (vm_compute; reflexivity).
  destruct (connect_then_connected 1 opens_at_once None None None None
              (Some 5%nat) None None 0 0 None true fresh s1 [] connected_message
              (mkFrame "CONNECTED" [("version", "1.2")] None) eq_refl E)
    as (Hcb & _ & _ & r & s2 & t & Em & Hc & _);
    [discriminate | reflexivity | reflexivity |].
  exists s1, s2. split; [exact E|]. split; [by rewrite Em|].
  split; [exact Hc | exact Hcb].
Defined.

(** [unsubscribe] after two subscriptions and a [disconnect]. *)
Lemma nothing_registered_after_disconnect_witness :
  contents None two_subscriptions = Some [] /\
  disconnect None None two_subscriptions = (Ret tt, after_disconnect) /\
  unsubscribe "sub-0" after_disconnect
    = (Raise (KeyError "sub-0"), after_disconnect).
Proof.
  assert (Hd : disconnect None None two_subscriptions
               = (Ret tt, after_disconnect)) by (vm_compute; reflexivity).
  split; [reflexivity|]. split; [exact Hd|].
  apply (nothing_registered_after_disconnect None None two_subscriptions
           after_disconnect [] eq_refl Hd).
Defined.

(** [send] in a session, without a body, with a mapping of the caller's
    that names another destination. *)
Lemma send_frame_contents_witness :
  connected sending = true /\
  contents (Some 4%nat) sending = Some [("destination", "/queue/old"); ("receipt", "r-2")] /\
  exists s',
    send "/queue/a" (Some 4%nat) None sending = (Ret tt, s') /\
    sent (trace s') =
      sent (trace sending)
        ++ [marshall "SEND" [("destination", "/queue/a"); ("receipt", "r-2")]
              (Some "")] /\
    subscriptions s' = subscriptions sending.
Proof.
  split; [reflexivity|]. split; [reflexivity|].
  destruct (send_frame_contents "/queue/a" (Some 4%nat) None sending
              [("destination", "/queue/old"); ("receipt", "r-2")] eq_refl)
    as (s' & E & Hs & _ & _ & Hr & _).
  exists s'. split; [exact E|]. split; [exact Hs | exact Hr].
Defined.
